(** * Retry and rate-limit core of the Discord provider (discord/client.go)

    A shallow embedding of [executeWithRetry], [executeWithRetryNoResult],
    [parseRetryAfter] and [calculateBackoff], and the properties the design
    document states about them.

    Conventions.
    - [time.Duration] and [int] are signed 64-bit integers: they are modelled
      as [Z] and every arithmetic operation of the source is followed by its
      two's-complement wrap-around ([wrap64]).
    - [float64] is IEEE 754 binary64, modelled by [spec_float] with precision
      53 and [emax] 1024.
    - Calls into the Go standard library and into the world outside the
      process (strconv, encoding/json, io, context, time) are the fields of
      the class [Runtime]; the executor is written in a state monad over the
      world they act on. *)

From Stdlib Require Import ZArith Lia Bool List Ascii String SpecFloat.
From stdpp Require Import gmap strings pretty.

Local Open Scope Z_scope.

(** ** Machine integers and durations *)

Module Int64.

Definition modulus : Z := 2 ^ 64.
Definition half_modulus : Z := 2 ^ 63.
Definition min_signed : Z := - half_modulus.
Definition max_signed : Z := half_modulus - 1.

(** The value an int64 holds after an operation whose exact result is [z]. *)
Definition wrap64 (z : Z) : Z := (z + half_modulus) mod modulus - half_modulus.

(** [uint(n)] for an [int] [n]: the same bits read as unsigned. *)
Definition uint_of_int (n : Z) : Z := n mod modulus.

(** [x << s] on int64 with an unsigned count [s]: counts of 64 and more
    shift every bit out; smaller counts keep the low 64 bits. *)
Definition shl (x s : Z) : Z :=
  if 64 <=? s then 0 else wrap64 (Z.shiftl x s).

Definition in_range (z : Z) : Prop := min_signed <= z <= max_signed.

End Int64.

Import Int64.

(** [time.Duration]: a count of nanoseconds in an int64. *)
Definition Duration : Type := Z.

Definition Nanosecond : Duration := 1.
Definition Microsecond : Duration := 1000 * Nanosecond.
Definition Millisecond : Duration := 1000 * Microsecond.
Definition Second : Duration := 1000 * Millisecond.

(** ** Constants of client.go *)

Definition maxRetries : Z := 5.
Definition baseBackoff : Duration := 1 * Second.
Definition maxBackoff : Duration := 120 * Second.

(** ** calculateBackoff *)

(** [calculateBackoff(attempt int, retryAfter time.Duration) time.Duration].
    In [time.Duration(1<<uint(attempt))] the untyped constant [1] takes the
    type of the conversion, so the shift is an int64 shift; the product with
    [baseBackoff] is an int64 product. *)
Definition calculateBackoff (attempt : Z) (retryAfter : Duration) : Duration :=
  if (0 <? retryAfter) && (retryAfter <? maxBackoff) then
    wrap64 (retryAfter + 500 * Millisecond)
  else
    let backoff := wrap64 (baseBackoff * shl 1 (uint_of_int attempt)) in
    if maxBackoff <? backoff then maxBackoff else backoff.

(** The sequence the design document describes: [baseDelay * 2^attempt]
    over the integers, clamped to the ceiling. *)
Definition exponential_sequence (attempt : Z) : Z :=
  Z.min (baseBackoff * 2 ^ attempt) maxBackoff.

(** ** float64 *)

Module Float64.

Definition prec : Z := 53.
Definition emax : Z := 1024.

Definition float64 : Type := spec_float.

Definition mul (x y : float64) : float64 := SFmul prec emax x y.

(** [float64(n)] for an integer [n], rounded to nearest even. *)
Definition of_int (n : Z) : float64 := binary_normalize prec emax n 0 false.

(** The constant [0] of a comparison such as [x > 0]. *)
Definition zero : float64 := S754_zero false.

(** [x > y]; false as soon as one side is NaN. *)
Definition gtb (x y : float64) : bool := SFltb y x.

(** The integer part of a finite float (the fraction is discarded), or
    [None] for NaN and the infinities. *)
Definition truncate (x : float64) : option Z :=
  match x with
  | S754_zero _ => Some 0
  | S754_finite s m e =>
      let magnitude :=
        if 0 <=? e then Z.pos m * 2 ^ e else Z.pos m / 2 ^ (- e) in
      Some (if s then - magnitude else magnitude)
  | S754_infinity _ | S754_nan => None
  end.

(** [int64(x)]. When [x] has no int64 value the conversion still succeeds
    and the language leaves the result to the implementation: [indefinite]
    gives it. *)
Definition to_int64 (indefinite : float64 -> Z) (x : float64) : Z :=
  match truncate x with
  | Some z =>
      if (Int64.min_signed <=? z) && (z <=? Int64.max_signed) then z
      else indefinite x
  | None => indefinite x
  end.

End Float64.

Import Float64.

(** ** The data model *)

(** [RateLimitError]: the decoded rate-limit payload. *)
Record RateLimitError : Type := mkRateLimitError {
  Message : string;
  RetryAfter : float64;
  Global : bool
}.

(** The value of [var rateLimitErr RateLimitError]. *)
Definition RateLimitError_zero : RateLimitError :=
  {| Message := EmptyString; RetryAfter := Float64.zero; Global := false |}.

(** [http.Header]: a map from canonical header names to their values. *)
Abbreviation Header := (gmap string (list string)).

(** [Header.Get(key)]: the first value stored under the canonical form of
    [key], or the empty string. The only key client.go asks for is the
    literal [Retry-After], which is its own canonical form, so the lookup is
    made with the key as given. *)
Definition Header_Get (h : Header) (key : string) : string :=
  match h !! key with
  | Some (v :: _) => v
  | _ => EmptyString
  end.

(** An [io.ReadCloser] is a reference to a stream that lives in the world;
    reading changes the stream, not the reference. *)
Definition ReadCloser : Type := nat.

(** The fields of [http.Response] that client.go reads; [Body] is [None] for
    a nil interface value. *)
Record Response : Type := mkResponse {
  StatusCode : Z;
  Header_ : Header;
  Body : option ReadCloser
}.

(** The fields of [discordgo.RESTError] that client.go reads. [Response_] is
    [None] for a nil pointer and [ResponseBody] is [None] for a nil slice (a
    slice that is empty but not nil is [Some nil]). *)
Record RESTError : Type := mkRESTError {
  Response_ : option Response;
  ResponseBody : option (list Byte.byte)
}.

(** Go [error] values, by dynamic type. *)
Inductive error : Type :=
| ErrREST (restErr : RESTError)          (* *discordgo.RESTError *)
| ErrCanceled                            (* context.Canceled *)
| ErrDeadlineExceeded                    (* context.DeadlineExceeded *)
| ErrString (msg : string)               (* errors.New, fmt.Errorf without %w *)
| ErrWrap (prefix : string) (wrapped : error).
                                         (* fmt.Errorf(prefix + "%w", wrapped) *)

(** [errors.Unwrap]. *)
Definition Unwrap (e : error) : option error :=
  match e with
  | ErrWrap _ wrapped => Some wrapped
  | _ => None
  end.

(** The text the verb [%d] prints for a non-negative integer. *)
Definition format_d (n : Z) : string := pretty (Z.to_N n).

(** The text before the wrapped error in
    [fmt.Errorf("max retries (%d) exceeded: %w", maxRetries, err)]. *)
Definition max_retries_prefix : string :=
  "max retries (" +:+ format_d maxRetries +:+ ") exceeded: ".

(** [fmt.Errorf("max retries (%d) exceeded: %w", maxRetries, err)]. With a
    nil [err] the verb [%w] has nothing to wrap and prints the nil operand. *)
Definition max_retries_exceeded (err : option error) : error :=
  match err with
  | Some e => ErrWrap max_retries_prefix e
  | None => ErrString (max_retries_prefix +:+ "%!w(<nil>)")
  end.

(** [restErr.Response != nil && restErr.Response.StatusCode == 429]. *)
Definition is_rate_limited (restErr : RESTError) : bool :=
  match Response_ restErr with
  | Some resp => StatusCode resp =? 429
  | None => false
  end.

(** The zero value of a type, as [var result T] yields it. *)
Class ZeroValue (T : Type) : Type := zero_value : T.

#[export] Instance unit_zero : ZeroValue unit := tt.          (* struct{} *)
#[export] Instance string_zero : ZeroValue string := EmptyString.
#[export] Instance Z_zero : ZeroValue Z := 0.
#[export] Instance option_zero {A} : ZeroValue (option A) := None. (* pointers *)

(** ** The runtime

    What client.go calls and does not define. [World] is the state of
    everything the calls can observe or change (the clock, the remote
    service, the response streams, whoever holds the cancel function);
    [Context] is the type of [context.Context] values. *)
Class Runtime (World Context : Type) : Type := {
  (** [strconv.ParseFloat(s, 64)]; [None] when the returned error is not nil. *)
  strconv_ParseFloat : string -> option float64;
  (** [json.Unmarshal(data, &v)] for a zero [v RateLimitError]; [None] when
      the returned error is not nil. *)
  json_Unmarshal : list Byte.byte -> option RateLimitError;
  (** The result of converting to int64 a float64 that has no int64 value. *)
  float64_indefinite : float64 -> Z;
  (** [io.ReadAll(r)]: the bytes read, or [None] when the returned error is
      not nil; the stream is left where the read stopped. *)
  io_ReadAll : ReadCloser -> World -> option (list Byte.byte) * World;
  (** [ctx.Err()]. *)
  ctx_Err : Context -> World -> option error;
  (** [select { case <-ctx.Done(): ...; case <-time.After(d): ... }]:
      [true] when the first case was taken, [false] when the timer fired. *)
  select_Done_After : Context -> Duration -> World -> bool * World
}.

(** An operation [func() (T, error)]: it may observe and change the world. *)
Definition Operation (World T : Type) : Type :=
  World -> (T * option error) * World.

(** An operation [func() error]. *)
Definition ErrOperation (World : Type) : Type :=
  World -> option error * World.

(** ** The executor's monad

    State passing over the world, together with a log of what the executor
    did to it: every invocation of the operation and every wait. *)

Inductive Event : Type :=
| Invoked (err : option error)             (* the operation ran and returned [err] *)
| Waited (d : Duration) (cancelled : bool). (* the select ran with a timer of [d] *)

Record Machine (World : Type) : Type := mkMachine {
  world : World;
  log : list Event
}.
Arguments mkMachine {World} _ _.
Arguments world {World} _.
Arguments log {World} _.

Definition M (World A : Type) : Type := Machine World -> A * Machine World.

Definition ret {World A} (a : A) : M World A := fun m => (a, m).

Definition bind {World A B} (c : M World A) (k : A -> M World B) : M World B :=
  fun m => let '(a, m') := c m in k a m'.

Declare Scope exec_scope.
Delimit Scope exec_scope with exec.
Notation "'let*' x := c 'in' k" := (bind c (fun x => k))
  (at level 10, x name, c at level 200, k at level 200, only parsing)
  : exec_scope.
Notation "'let*' ' p := c 'in' k" := (bind c (fun x => let 'p := x in k))
  (at level 10, p pattern, c at level 200, k at level 200, only parsing)
  : exec_scope.

(** Number of invocations of the operation recorded in a log. *)
Fixpoint invocations (l : list Event) : nat :=
  match l with
  | Invoked _ :: l' => S (invocations l')
  | Waited _ _ :: l' => invocations l'
  | nil => O
  end.

(** The error returned by the last invocation recorded in a log. *)
Fixpoint last_invocation (l : list Event) : option (option error) :=
  match l with
  | Invoked e :: l' =>
      match last_invocation l' with
      | Some e' => Some e'
      | None => Some e
      end
  | Waited _ _ :: l' => last_invocation l'
  | nil => None
  end.

(** The error the loop reports when it runs out of iterations: the one of
    the last invocation of this run, or the one it was entered with. *)
Definition reported (events : list Event) (err : option error)
  : option error :=
  default err (last_invocation events).

(** The log of a run of rate-limited rounds: each round is an invocation
    that returns a REST error, and a wait that is not cancelled. *)
Definition rounds (l : list (RESTError * Duration)) : list Event :=
  flat_map (fun p => [Invoked (Some (ErrREST (fst p))); Waited (snd p) false])
           l.

(** The waits recorded in a log, in order. *)
Fixpoint waits (l : list Event) : list Duration :=
  match l with
  | Waited d _ :: l' => d :: waits l'
  | Invoked _ :: l' => waits l'
  | nil => nil
  end.

Section Core.

Context {World Context : Type} `{RT : Runtime World Context}.

(** *** parseRetryAfter *)

(** [time.Duration(seconds * float64(time.Second))]. *)
Definition seconds_to_Duration (seconds : float64) : Duration :=
  Float64.to_int64 float64_indefinite
    (Float64.mul seconds (Float64.of_int Second)).

(** [json.Unmarshal(data, &rateLimitErr) == nil && rateLimitErr.RetryAfter > 0]
    and, when it holds, the duration returned. *)
Definition payload_wait (data : list Byte.byte) : option Duration :=
  match json_Unmarshal data with
  | Some rateLimitErr =>
      if Float64.gtb (RetryAfter rateLimitErr) Float64.zero
      then Some (seconds_to_Duration (RetryAfter rateLimitErr))
      else None
  | None => None
  end.

(** [parseRetryAfter(restErr *discordgo.RESTError) time.Duration], for a
    [restErr] that is not nil. Reading [Response.Body] goes through the
    world, so the function takes the world and returns it. *)
Definition parseRetryAfter (restErr : RESTError) (w : World)
  : Duration * World :=
  match Response_ restErr with
  | None => (5 * Second, w)
  | Some resp =>
      let fallthrough3 (w : World) :=
        (* Try reading from Response.Body *)
        match Body resp with
        | Some stream =>
            let '(read, w') := io_ReadAll stream w in
            match read with
            | Some body =>
                match payload_wait body with
                | Some d => (d, w')
                | None => (5 * Second, w')
                end
            | None => (5 * Second, w')
            end
        | None => (5 * Second, w)
        end in
      let fallthrough2 (w : World) :=
        (* Try parsing JSON body from the response body in the error *)
        match ResponseBody restErr with
        | Some data =>
            match payload_wait data with
            | Some d => (d, w)
            | None => fallthrough3 w
            end
        | None => fallthrough3 w
        end in
      (* Try Retry-After header first *)
      let retryAfterStr := Header_Get (Header_ resp) "Retry-After" in
      if decide (retryAfterStr <> EmptyString) then
        match strconv_ParseFloat retryAfterStr with
        | Some seconds => (seconds_to_Duration seconds, w)
        | None => fallthrough2 w
        end
      else fallthrough2 w
  end.

(** *** executeWithRetry *)

Local Open Scope exec_scope.

(** [ctx.Err()] *)
Definition ctxErr (ctx : Context) : M World (option error) :=
  fun m => (ctx_Err ctx (world m), m).

(** [operation()] *)
Definition invoke {T} (operation : Operation World T)
  : M World (T * option error) :=
  fun m =>
    let '(r, w') := operation (world m) in
    (r, mkMachine w' (log m ++ [Invoked (snd r)])).

(** The [select] on [ctx.Done()] and [time.After(d)] *)
Definition selectDone (ctx : Context) (d : Duration) : M World bool :=
  fun m =>
    let '(done, w') := select_Done_After ctx d (world m) in
    (done, mkMachine w' (log m ++ [Waited d done])).

(** A call that acts on the world alone *)
Definition lift {A} (f : World -> A * World) : M World A :=
  fun m => let '(a, w') := f (world m) in (a, mkMachine w' (log m)).

(** The [for] loop of [executeWithRetry], entered with [attempt] and the
    current values of [result] and [err]. [remaining] is the number of
    iterations left, [maxRetries - attempt]; with none left control is
    after the loop. *)
Fixpoint retry_loop {T} (ctx : Context) (operation : Operation World T)
    (remaining : nat) (attempt : Z) (result : T) (err : option error)
  : M World (T * option error) :=
  match remaining with
  | O => ret (result, Some (max_retries_exceeded err))
  | S remaining' =>
      let* cancelled := ctxErr ctx in
      match cancelled with
      | Some _ =>
          let* e := ctxErr ctx in
          ret (result, e)
      | None =>
          let* '(result, err) := invoke operation in
          match err with
          | None => ret (result, None)
          | Some (ErrREST restErr) =>
              if is_rate_limited restErr then
                let* retryAfter := lift (parseRetryAfter restErr) in
                let waitDuration := calculateBackoff attempt retryAfter in
                let* done := selectDone ctx waitDuration in
                if (done : bool) then
                  let* e := ctxErr ctx in
                  ret (result, e)
                else
                  retry_loop ctx operation remaining' (attempt + 1) result err
              else ret (result, err)
          | Some _ => ret (result, err)
          end
      end
  end.

(** [executeWithRetry[T any](ctx, operation) (T, error)] *)
Definition executeWithRetry {T} `{ZeroValue T} (ctx : Context)
    (operation : Operation World T) : M World (T * option error) :=
  retry_loop ctx operation (Z.to_nat (maxRetries - 0)) 0 zero_value None.

(** The closure [func() (struct{}, error) { return struct{}{}, operation() }]
    that [executeWithRetryNoResult] passes on. *)
Definition adapt (operation : ErrOperation World) : Operation World unit :=
  fun w => let '(e, w') := operation w in ((tt, e), w').

(** [executeWithRetryNoResult(ctx, operation) error] *)
Definition executeWithRetryNoResult (ctx : Context)
    (operation : ErrOperation World) : M World (option error) :=
  let* '(_, err) := executeWithRetry (T := unit) ctx (adapt operation) in
  ret err.

(** *** The policy as the design document words it

    What follows is not code of client.go: these definitions restate the
    document, to be compared with the code above. *)

(** The wait a Retry-After header suggests, when there is one and it
    parses as a number. *)
Definition header_wait (resp : Response) : option Duration :=
  let s := Header_Get (Header_ resp) "Retry-After" in
  if decide (s = EmptyString) then None
  else option_map seconds_to_Duration (strconv_ParseFloat s).

(** The wait the pre-read body suggests. *)
Definition body_wait (restErr : RESTError) : option Duration :=
  match ResponseBody restErr with
  | Some data => payload_wait data
  | None => None
  end.

(** The wait the live body stream suggests in world [w], when it is there,
    can be read and decodes. *)
Definition stream_wait (resp : Response) (w : World) : option Duration :=
  match Body resp with
  | Some stream =>
      match fst (io_ReadAll stream w) with
      | Some body => payload_wait body
      | None => None
      end
  | None => None
  end.

(** No source gives a usable signal. *)
Definition no_signal (restErr : RESTError) (w : World) : Prop :=
  match Response_ restErr with
  | None => True
  | Some resp =>
      header_wait resp = None /\ body_wait restErr = None
      /\ stream_wait resp w = None
  end.

(** The wait is decided without touching the live body stream. *)
Definition decided_without_stream (restErr : RESTError) : Prop :=
  match Response_ restErr with
  | None => True
  | Some resp =>
      header_wait resp <> None \/ body_wait restErr <> None
      \/ Body resp = None
  end.

(** Errors that the executor retries: a REST error with a response whose
    status code is 429. *)
Definition retryable (e : error) : bool :=
  match e with
  | ErrREST restErr => is_rate_limited restErr
  | _ => false
  end.

(** [operation()] for an operation that returns only an error. *)
Definition invoke_err (operation : ErrOperation World)
  : M World (option error) :=
  fun m =>
    let '(e, w') := operation (world m) in
    (e, mkMachine w' (log m ++ [Invoked e])).

(** The retry policy of section 4.1 of the document, written directly for
    an operation that only reports success or failure. *)
Fixpoint policy_no_result (ctx : Context) (operation : ErrOperation World)
    (remaining : nat) (attempt : Z) (err : option error)
  : M World (option error) :=
  match remaining with
  | O => ret (Some (max_retries_exceeded err))
  | S remaining' =>
      let* cancelled := ctxErr ctx in
      match cancelled with
      | Some _ => ctxErr ctx
      | None =>
          let* err := invoke_err operation in
          match err with
          | None => ret None
          | Some e =>
              if retryable e then
                match e with
                | ErrREST restErr =>
                    let* suggested := lift (parseRetryAfter restErr) in
                    let* done :=
                      selectDone ctx (calculateBackoff attempt suggested) in
                    if (done : bool) then ctxErr ctx
                    else policy_no_result ctx operation remaining'
                           (attempt + 1) err
                | _ => ret err
                end
              else ret err
          end
      end
  end.

End Core.

(** ** The forum-post resource: the handlers that call the executor

    The four handlers of the resource and the schema they work on. The
    Discord session is a parameter: its calls are operations on the
    world. *)

(** Values of resource attributes. *)
Inductive Value : Type :=
| VString (s : string)
| VInt (n : Z)
| VBool (b : bool)
| VList (l : list string).

(** [schema.ValueType], the types the resource uses; every list holds
    strings. *)
Inductive ValueType : Type :=
| TypeString
| TypeInt
| TypeBool
| TypeList.

Definition type_of (v : Value) : ValueType :=
  match v with
  | VString _ => TypeString
  | VInt _ => TypeInt
  | VBool _ => TypeBool
  | VList _ => TypeList
  end.

(** The zero value of a type. *)
Definition zero_of (t : ValueType) : Value :=
  match t with
  | TypeString => VString EmptyString
  | TypeInt => VInt 0
  | TypeBool => VBool false
  | TypeList => VList []
  end.

(** [schema.Schema], the fields the resource gives. *)
Record Schema : Type := mkSchema {
  Type_ : ValueType;
  Required : bool;
  Optional : bool;
  Computed : bool;
  ForceNew : bool;
  Default : option Value
}.

(** The [Schema] map of [resourceDiscordForumPost()]. *)
Definition resourceDiscordForumPost_Schema : gmap string Schema :=
  list_to_map
    [ ("channel_id"%string,
       {| Type_ := TypeString; Required := true; Optional := false;
          Computed := false; ForceNew := true; Default := None |});
      ("name"%string,
       {| Type_ := TypeString; Required := true; Optional := false;
          Computed := false; ForceNew := false; Default := None |});
      ("message"%string,
       {| Type_ := TypeString; Required := true; Optional := false;
          Computed := false; ForceNew := true; Default := None |});
      ("auto_archive_duration"%string,
       {| Type_ := TypeInt; Required := false; Optional := true;
          Computed := false; ForceNew := false;
          Default := Some (VInt 10080) |});
      ("applied_tags"%string,
       {| Type_ := TypeList; Required := false; Optional := true;
          Computed := false; ForceNew := false; Default := None |});
      ("pinned"%string,
       {| Type_ := TypeBool; Required := false; Optional := true;
          Computed := false; ForceNew := false;
          Default := Some (VBool false) |});
      (* Computed attributes *)
      ("thread_id"%string,
       {| Type_ := TypeString; Required := false; Optional := false;
          Computed := true; ForceNew := false; Default := None |});
      ("owner_id"%string,
       {| Type_ := TypeString; Required := false; Optional := false;
          Computed := true; ForceNew := false; Default := None |}) ].

(** [schema.ResourceData], as far as the handlers use it: the resource ID,
    the attribute values that [d.Get] sees (planned values, then what
    [d.Set] wrote), and the answers of [d.HasChange], which compare the
    prior state with the plan and which [d.Set] does not alter. *)
Record ResourceData : Type := mkResourceData {
  Id : string;
  attributes : gmap string Value;
  HasChange : string -> bool
}.

(** [d.SetId(id)] *)
Definition SetId (id : string) (d : ResourceData) : ResourceData :=
  {| Id := id; attributes := attributes d; HasChange := HasChange d |}.

(** [d.Set(key, value)], for a key of the schema and a value of its type. *)
Definition Set_ (key : string) (v : Value) (d : ResourceData) : ResourceData :=
  {| Id := Id d; attributes := <[key := v]> (attributes d);
     HasChange := HasChange d |}.

(** [d.Get(key)]: the value of the attribute; for one that has none, the
    default of its schema or else the zero value of its type; [None], a nil
    interface, for a key that is not in the schema. *)
Definition Get (key : string) (d : ResourceData) : option Value :=
  match attributes d !! key with
  | Some v => Some v
  | None =>
      match resourceDiscordForumPost_Schema !! key with
      | Some s => Some (default (zero_of (Type_ s)) (Default s))
      | None => None
      end
  end.

(** Whether a value is a zero value. *)
Definition is_zero (v : Value) : bool :=
  match v with
  | VString s => if decide (s = EmptyString) then true else false
  | VInt n => n =? 0
  | VBool b => negb b
  | VList l => match l with [] => true | _ => false end
  end.

(** [d.GetOk(key)]: the value, and whether there is one that is not the
    zero value of its type. *)
Definition GetOk (key : string) (d : ResourceData) : option Value * bool :=
  match Get key d with
  | Some v => (Some v, negb (is_zero v))
  | None => (None, false)
  end.

(** The attributes hold values of the types the schema gives them. *)
Definition well_typed (d : ResourceData) : Prop :=
  forall key v,
    attributes d !! key = Some v ->
    exists s, resourceDiscordForumPost_Schema !! key = Some s
              /\ type_of v = Type_ s.

(** [discordgo.ThreadMetadata] and [discordgo.Channel], the fields read. *)
Record ThreadMetadata : Type := mkThreadMetadata {
  AutoArchiveDuration : Z
}.

Record Channel : Type := mkChannel {
  ID : string;
  ParentID : string;
  Name : string;
  OwnerID : string;
  Flags : Z;
  AppliedTags : list string;
  ThreadMetadata_ : option ThreadMetadata
}.

(** [discordgo.ChannelFlagPinned], the constant [1 << 1]. *)
Definition ChannelFlagPinned : Z := Z.shiftl 1 1.

(** [discordgo.ThreadStart], [discordgo.MessageSend] and
    [discordgo.ChannelEdit], the fields written; a pointer field is [None]
    when nil. *)
Record ThreadStart : Type := mkThreadStart {
  ThreadStart_Name : string;
  ThreadStart_AutoArchiveDuration : Z;
  ThreadStart_AppliedTags : list string
}.

Record MessageSend : Type := mkMessageSend {
  Content : string
}.

Record ChannelEdit : Type := mkChannelEdit {
  ChannelEdit_Name : string;
  ChannelEdit_AutoArchiveDuration : Z;
  ChannelEdit_AppliedTags : option (list string);
  ChannelEdit_Flags : option Z
}.

(** [&discordgo.ChannelEdit{}] *)
Definition ChannelEdit_zero : ChannelEdit :=
  {| ChannelEdit_Name := EmptyString; ChannelEdit_AutoArchiveDuration := 0;
     ChannelEdit_AppliedTags := None; ChannelEdit_Flags := None |}.

(** One diagnostic made by [diag.Errorf(format, args...)]: the format, the
    resource ID when it is an argument, and the error whose text is the last
    argument. *)
Inductive Diagnostic : Type :=
| DiagErrorf (format : string) (id : option string) (cause : error).

(** [diag.Diagnostics]; the empty list reports success. *)
Definition Diagnostics : Type := list Diagnostic.

(** What a call comes to: it returns, or it panics (a nil pointer is
    dereferenced, a type assertion fails). *)
Inductive Outcome (A : Type) : Type :=
| Returned (a : A)
| Panicked.
Arguments Returned {A} _.
Arguments Panicked {A}.

Definition Outcome_bind {A B} (o : Outcome A) (k : A -> Outcome B)
  : Outcome B :=
  match o with
  | Returned a => k a
  | Panicked => Panicked
  end.

(** The type assertions [v.(string)], [v.(int)] and [v.(bool)]. *)
Definition assert_string (v : option Value) : Outcome string :=
  match v with
  | Some (VString s) => Returned s
  | _ => Panicked
  end.

Definition assert_int (v : option Value) : Outcome Z :=
  match v with
  | Some (VInt n) => Returned n
  | _ => Panicked
  end.

Definition assert_bool (v : option Value) : Outcome bool :=
  match v with
  | Some (VBool b) => Returned b
  | _ => Panicked
  end.

(** The tags both handlers collect:
    [if v, ok := d.GetOk("applied_tags"); ok { for ... append ... }],
    starting from a nil slice. *)
Definition collect_applied_tags (d : ResourceData) : Outcome (list string) :=
  let '(v, ok) := GetOk "applied_tags" d in
  if ok then
    match v with
    | Some (VList l) => Returned l
    | _ => Panicked
    end
  else Returned [].

(** The edit [resourceForumPostUpdate] builds, and [hasChanges]. *)
Definition build_edit (d : ResourceData) : Outcome (ChannelEdit * bool) :=
  let edit := ChannelEdit_zero in
  let hasChanges := false in
  Outcome_bind
    (if HasChange d "name" then
       Outcome_bind (assert_string (Get "name" d)) (fun name =>
       Returned
         ({| ChannelEdit_Name := name;
             ChannelEdit_AutoArchiveDuration :=
               ChannelEdit_AutoArchiveDuration edit;
             ChannelEdit_AppliedTags := ChannelEdit_AppliedTags edit;
             ChannelEdit_Flags := ChannelEdit_Flags edit |}, true))
     else Returned (edit, hasChanges))
    (fun '(edit, hasChanges) =>
  Outcome_bind
    (if HasChange d "auto_archive_duration" then
       Outcome_bind (assert_int (Get "auto_archive_duration" d))
         (fun duration =>
       Returned
         ({| ChannelEdit_Name := ChannelEdit_Name edit;
             ChannelEdit_AutoArchiveDuration := duration;
             ChannelEdit_AppliedTags := ChannelEdit_AppliedTags edit;
             ChannelEdit_Flags := ChannelEdit_Flags edit |}, true))
     else Returned (edit, hasChanges))
    (fun '(edit, hasChanges) =>
  Outcome_bind
    (if HasChange d "applied_tags" then
       Outcome_bind (collect_applied_tags d) (fun tags =>
       Returned
         ({| ChannelEdit_Name := ChannelEdit_Name edit;
             ChannelEdit_AutoArchiveDuration :=
               ChannelEdit_AutoArchiveDuration edit;
             ChannelEdit_AppliedTags := Some tags;
             ChannelEdit_Flags := ChannelEdit_Flags edit |}, true))
     else Returned (edit, hasChanges))
    (fun '(edit, hasChanges) =>
    if HasChange d "pinned" then
      Outcome_bind (assert_bool (Get "pinned" d)) (fun pinned =>
      let flags := if (pinned : bool) then ChannelFlagPinned else 0 in
      Returned
        ({| ChannelEdit_Name := ChannelEdit_Name edit;
            ChannelEdit_AutoArchiveDuration :=
              ChannelEdit_AutoArchiveDuration edit;
            ChannelEdit_AppliedTags := ChannelEdit_AppliedTags edit;
            ChannelEdit_Flags := Some flags |}, true))
    else Returned (edit, hasChanges)))).

(** The test the handlers make on the executor's error: it is a
    [discordgo.RESTError] (by type assertion) with a response whose status
    code is 404. *)
Definition is_not_found (e : error) : bool :=
  match e with
  | ErrREST restErr =>
      match Response_ restErr with
      | Some resp => StatusCode resp =? 404
      | None => false
      end
  | _ => false
  end.

(** The writes [resourceForumPostRead] makes for a thread it fetched. *)
Definition read_thread (thread : Channel) (d : ResourceData) : ResourceData :=
  let d := Set_ "channel_id" (VString (ParentID thread)) d in
  let d := Set_ "name" (VString (Name thread)) d in
  let d :=
    match ThreadMetadata_ thread with
    | Some metadata =>
        Set_ "auto_archive_duration" (VInt (AutoArchiveDuration metadata)) d
    | None => d
    end in
  let d := Set_ "thread_id" (VString (ID thread)) d in
  let d := Set_ "owner_id" (VString (OwnerID thread)) d in
  (* Check if pinned *)
  let d :=
    Set_ "pinned"
      (VBool (negb (Z.land (Flags thread) ChannelFlagPinned =? 0))) d in
  (* Get applied tags *)
  if (0 <? Z.of_nat (length (AppliedTags thread)))
  then Set_ "applied_tags" (VList (AppliedTags thread)) d
  else d.

Section Handlers.

Context {World Context : Type} `{RT : Runtime World Context}.

Local Open Scope exec_scope.

(** The session's calls the handlers make, each an operation on the
    world. *)
Record Session : Type := mkSession {
  ForumThreadStartComplex :
    string -> ThreadStart -> MessageSend -> Operation World (option Channel);
  ChannelEditComplex :
    string -> ChannelEdit -> Operation World (option Channel);
  Channel_ : string -> Operation World (option Channel);
  ChannelDelete : string -> Operation World (option Channel)
}.

(** The closure [func() error { _, err := ...; return err }]. *)
Definition error_only {T} (operation : Operation World T)
  : ErrOperation World :=
  fun w => let '((_, err), w') := operation w in (err, w').

(** [resourceForumPostDelete(ctx, d, m)]; [d] is not written to. *)
Definition resourceForumPostDelete (ctx : Context) (client : Session)
    (d : ResourceData) : M World Diagnostics :=
  let* '(_, err) := executeWithRetry ctx (ChannelDelete client (Id d)) in
  match err with
  | Some e =>
      (* Ignore 404 errors (already deleted) *)
      if is_not_found e then ret []
      else ret [DiagErrorf "Failed to delete forum post: %s" None e]
  | None => ret []
  end.

(** [resourceForumPostRead(ctx, d, m)]: the diagnostics and [d] as the
    handler leaves it. *)
Definition resourceForumPostRead (ctx : Context) (client : Session)
    (d : ResourceData) : M World (Outcome (Diagnostics * ResourceData)) :=
  let* '(thread, err) := executeWithRetry ctx (Channel_ client (Id d)) in
  match err with
  | Some e =>
      (* Check if the thread was deleted (404) *)
      if is_not_found e then ret (Returned ([], SetId EmptyString d))
      else
        ret (Returned
               ([DiagErrorf "Failed to fetch forum post %s: %s"
                   (Some (Id d)) e], d))
  | None =>
      match thread with
      | Some thread => ret (Returned ([], read_thread thread d))
      | None => ret Panicked
      end
  end.

(** What [resourceForumPostCreate] does once the thread is started. *)
Definition created (ctx : Context) (client : Session) (thread : Channel)
    (d : ResourceData) : M World (Outcome (Diagnostics * ResourceData)) :=
  let d := SetId (ID thread) d in
  let d := Set_ "thread_id" (VString (ID thread)) d in
  let d := Set_ "owner_id" (VString (OwnerID thread)) d in
  (* Handle pinning if requested *)
  match assert_bool (Get "pinned" d) with
  | Returned true =>
      let flags := ChannelFlagPinned in
      let* err :=
        executeWithRetryNoResult ctx
          (error_only
             (ChannelEditComplex client (ID thread)
                {| ChannelEdit_Name := EmptyString;
                   ChannelEdit_AutoArchiveDuration := 0;
                   ChannelEdit_AppliedTags := None;
                   ChannelEdit_Flags := Some flags |})) in
      match err with
      | Some e =>
          ret (Returned
                 ([DiagErrorf "Failed to pin forum post: %s" None e], d))
      | None => resourceForumPostRead ctx client d
      end
  | Returned false => resourceForumPostRead ctx client d
  | Panicked => ret Panicked
  end.

(** [resourceForumPostCreate(ctx, d, m)] *)
Definition resourceForumPostCreate (ctx : Context) (client : Session)
    (d : ResourceData) : M World (Outcome (Diagnostics * ResourceData)) :=
  match assert_string (Get "channel_id" d),
        assert_string (Get "name" d),
        assert_string (Get "message" d),
        assert_int (Get "auto_archive_duration" d),
        (* Build applied tags *)
        collect_applied_tags d with
  | Returned channelId, Returned name, Returned message,
    Returned autoArchive, Returned appliedTags =>
      (* Create forum post with retry handling *)
      let* '(thread, err) :=
        executeWithRetry ctx
          (ForumThreadStartComplex client channelId
             {| ThreadStart_Name := name;
                ThreadStart_AutoArchiveDuration := autoArchive;
                ThreadStart_AppliedTags := appliedTags |}
             {| Content := message |}) in
      match err with
      | Some e =>
          ret (Returned
                 ([DiagErrorf "Failed to create forum post: %s" None e], d))
      | None =>
          match thread with
          | Some thread => created ctx client thread d
          | None => ret Panicked
          end
      end
  | _, _, _, _, _ => ret Panicked
  end.

(** [resourceForumPostUpdate(ctx, d, m)] *)
Definition resourceForumPostUpdate (ctx : Context) (client : Session)
    (d : ResourceData) : M World (Outcome (Diagnostics * ResourceData)) :=
  match build_edit d with
  | Returned (edit, hasChanges) =>
      if (hasChanges : bool) then
        let* err :=
          executeWithRetryNoResult ctx
            (error_only (ChannelEditComplex client (Id d) edit)) in
        match err with
        | Some e =>
            ret (Returned
                   ([DiagErrorf "Failed to update forum post: %s" None e],
                    d))
        | None => resourceForumPostRead ctx client d
        end
      else resourceForumPostRead ctx client d
  | Panicked => ret Panicked
  end.

End Handlers.

(** ** A reference runtime

    One concrete [Runtime], used to run the definitions above on concrete
    inputs. Its library functions cover a fragment of what the Go libraries
    accept (decimal literals for strconv, flat objects without escapes for
    encoding/json) and reject everything else. *)

Module Reference.

Definition quote : ascii := ascii_of_nat 34.
Definition backslash : ascii := ascii_of_nat 92.

Definition code (c : ascii) : Z := Z.of_nat (nat_of_ascii c).

Definition digit (c : ascii) : option Z :=
  if (48 <=? code c) && (code c <=? 57) then Some (code c - 48) else None.

(** Reads a run of decimal digits: the number they denote on top of [acc],
    how many there were, and what follows. *)
Fixpoint read_digits (acc : Z) (n : nat) (s : list ascii)
  : Z * nat * list ascii :=
  match s with
  | c :: s' =>
      match digit c with
      | Some d => read_digits (10 * acc + d) (S n) s'
      | None => (acc, n, s)
      end
  | [] => (acc, n, [])
  end.

Definition read_sign (s : list ascii) : bool * list ascii :=
  match s with
  | c :: s' =>
      if Ascii.eqb c "-" then (true, s')
      else if Ascii.eqb c "+" then (false, s')
      else (false, s)
  | [] => (false, [])
  end.

(** A decimal literal [[+-]digits[.digits][(e|E)[+-]digits]] with at least
    one digit in the mantissa: its sign, mantissa and power of ten. *)
Definition parse_decimal (s : list ascii) : option (bool * Z * Z) :=
  let '(neg, s1) := read_sign s in
  let '(ip, ni, s2) := read_digits 0 0 s1 in
  let '(m, nf, s3) :=
    match s2 with
    | c :: r => if Ascii.eqb c "." then read_digits ip 0 r else (ip, O, s2)
    | [] => (ip, O, s2)
    end in
  if (ni + nf =? 0)%nat then None
  else
    match s3 with
    | [] => Some (neg, m, - Z.of_nat nf)
    | c :: r =>
        if Ascii.eqb c "e" || Ascii.eqb c "E" then
          let '(eneg, r1) := read_sign r in
          let '(e, ne, r2) := read_digits 0 0 r1 in
          match ne, r2 with
          | S _, [] => Some (neg, m, (if eneg then - e else e) - Z.of_nat nf)
          | _, _ => None
          end
        else None
    end.

(** The float64 nearest to [m * 10^e] (ties to even), for [m >= 0]. *)
Definition decimal_to_float64 (neg : bool) (m e : Z) : float64 :=
  match m with
  | Z0 => S754_zero neg
  | Zpos _ =>
      if 0 <=? e then
        binary_round Float64.prec Float64.emax neg (Z.to_pos (m * 10 ^ e)) 0
      else
        let '(q, e', l) :=
          SFdiv_core_binary Float64.prec Float64.emax m 0 (10 ^ (- e)) 0 in
        binary_round_aux Float64.prec Float64.emax neg q e' l
  | Zneg _ => S754_nan
  end.

(** [strconv.ParseFloat(s, 64)] on decimal literals; a value too large for
    a float64 is a range error. *)
Definition ParseFloat_ascii (s : list ascii) : option float64 :=
  match parse_decimal s with
  | Some (neg, m, e) =>
      match decimal_to_float64 neg m e with
      | S754_infinity _ => None
      | f => Some f
      end
  | None => None
  end.

Definition ParseFloat (s : string) : option float64 :=
  ParseFloat_ascii (list_ascii_of_string s).

(** *** JSON: flat objects of strings, numbers, booleans and null *)

Inductive token : Type :=
| TLBrace | TRBrace | TColon | TComma
| TStr (s : list ascii)
| TLit (s : list ascii).

Inductive mode : Type :=
| Idle
| InStr (rev_chars : list ascii)
| InLit (rev_chars : list ascii).

Definition is_space (c : ascii) : bool :=
  (code c =? 32) || (code c =? 9) || (code c =? 10) || (code c =? 13).

(** One character read outside a string or literal. *)
Definition idle_step (c : ascii) (out : list token)
  : option (mode * list token) :=
  if is_space c then Some (Idle, out)
  else if Ascii.eqb c "{" then Some (Idle, TLBrace :: out)
  else if Ascii.eqb c "}" then Some (Idle, TRBrace :: out)
  else if Ascii.eqb c ":" then Some (Idle, TColon :: out)
  else if Ascii.eqb c "," then Some (Idle, TComma :: out)
  else if Ascii.eqb c quote then Some (InStr [], out)
  else if Ascii.eqb c "[" || Ascii.eqb c "]" then None
  else Some (InLit [c], out).

Definition is_delimiter (c : ascii) : bool :=
  is_space c || Ascii.eqb c "{" || Ascii.eqb c "}" || Ascii.eqb c ":"
  || Ascii.eqb c "," || Ascii.eqb c quote.

(** The tokens of a text, last token first. *)
Fixpoint lex (s : list ascii) (m : mode) (out : list token)
  : option (list token) :=
  match s with
  | [] =>
      match m with
      | Idle => Some out
      | InStr _ => None
      | InLit l => Some (TLit (rev l) :: out)
      end
  | c :: s' =>
      match m with
      | Idle =>
          match idle_step c out with
          | Some (m', out') => lex s' m' out'
          | None => None
          end
      | InStr l =>
          if Ascii.eqb c quote then lex s' Idle (TStr (rev l) :: out)
          else if Ascii.eqb c backslash || (code c <? 32) then None
          else lex s' (InStr (c :: l)) out
      | InLit l =>
          if is_delimiter c then
            match idle_step c (TLit (rev l) :: out) with
            | Some (m', out') => lex s' m' out'
            | None => None
            end
          else lex s' (InLit (c :: l)) out
      end
  end.

(** The JSON number grammar: an optional minus sign; a single zero or a
    run of digits that does not start with zero; optionally a point and
    one digit or more; optionally an exponent mark, a sign and one digit
    or more. *)
Definition json_number (s : list ascii) : bool :=
  let s1 :=
    match s with
    | c :: r => if Ascii.eqb c "-" then r else s
    | [] => s
    end in
  let '(_, ni, s2) := read_digits 0 0 s1 in
  let leading_zero :=
    match s1 with
    | c :: _ => Ascii.eqb c "0"
    | [] => false
    end in
  if (ni =? 0)%nat || (leading_zero && negb (ni =? 1)%nat) then false
  else
    let frac :=
      match s2 with
      | c :: r =>
          if Ascii.eqb c "." then
            let '(_, nf, r') := read_digits 0 0 r in
            if (nf =? 0)%nat then None else Some r'
          else Some s2
      | [] => Some s2
      end in
    match frac with
    | None => false
    | Some [] => true
    | Some (c :: r) =>
        if Ascii.eqb c "e" || Ascii.eqb c "E" then
          let r1 :=
            match r with
            | c' :: r' =>
                if Ascii.eqb c' "-" || Ascii.eqb c' "+" then r' else r
            | [] => r
            end in
          let '(_, ne, r2) := read_digits 0 0 r1 in
          match ne, r2 with
          | S _, [] => true
          | _, _ => false
          end
        else false
    end.

Inductive jvalue : Type :=
| JString (s : list ascii)
| JNumber (raw : list ascii)
| JBool (b : bool)
| JNull.

Definition word (s : string) : list ascii := list_ascii_of_string s.

Definition ascii_list_eqb (a b : list ascii) : bool :=
  String.eqb (string_of_list_ascii a) (string_of_list_ascii b).

Definition value_of_token (t : token) : option jvalue :=
  match t with
  | TStr s => Some (JString s)
  | TLit l =>
      if ascii_list_eqb l (word "true") then Some (JBool true)
      else if ascii_list_eqb l (word "false") then Some (JBool false)
      else if ascii_list_eqb l (word "null") then Some JNull
      else if json_number l then Some (JNumber l)
      else None
  | _ => None
  end.

Definition lower (c : ascii) : ascii :=
  if (65 <=? code c) && (code c <=? 90)
  then ascii_of_nat (nat_of_ascii c + 32) else c.

(** Field names match keys without regard to case. *)
Definition key_is (key : list ascii) (name : string) : bool :=
  ascii_list_eqb (map lower key) (word name).

(** Stores one member into the struct; [None] when the value has the wrong
    type for the field. JSON null leaves the field as it is and unknown
    keys are skipped. *)
Definition assign (key : list ascii) (v : jvalue) (r : RateLimitError)
  : option RateLimitError :=
  if key_is key "message" then
    match v with
    | JString s =>
        Some {| Message := string_of_list_ascii s;
                RetryAfter := RetryAfter r; Global := Global r |}
    | JNull => Some r
    | _ => None
    end
  else if key_is key "retry_after" then
    match v with
    | JNumber raw =>
        match ParseFloat_ascii raw with
        | Some f =>
            Some {| Message := Message r; RetryAfter := f;
                    Global := Global r |}
        | None => None
        end
    | JNull => Some r
    | _ => None
    end
  else if key_is key "global" then
    match v with
    | JBool b =>
        Some {| Message := Message r; RetryAfter := RetryAfter r;
                Global := b |}
    | JNull => Some r
    | _ => None
    end
  else Some r.

(** The members of an object, after its opening brace. *)
Fixpoint members (ts : list token) (r : RateLimitError)
  : option RateLimitError :=
  match ts with
  | TStr key :: TColon :: t :: rest =>
      match value_of_token t with
      | Some v =>
          match assign key v r with
          | Some r' =>
              match rest with
              | [TRBrace] => Some r'
              | TComma :: rest' => members rest' r'
              | _ => None
              end
          | None =>
              (* the type error is reported once the text has been checked *)
              None
          end
      | None => None
      end
  | _ => None
  end.

(** [json.Unmarshal(data, &v)] for a zero [v RateLimitError]. *)
Definition Unmarshal (data : list Byte.byte) : option RateLimitError :=
  match lex (map ascii_of_byte data) Idle [] with
  | Some out =>
      match rev out with
      | [TLit l] =>
          if ascii_list_eqb l (word "null") then Some RateLimitError_zero
          else None
      | [TLBrace; TRBrace] => Some RateLimitError_zero
      | TLBrace :: ts => members ts RateLimitError_zero
      | _ => None
      end
  | None => None
  end.

(** *** The world *)

(** The clock, and what each open response stream still holds. *)
Record World : Type := mkWorld {
  clock : Z;
  streams : gmap nat (list Byte.byte)
}.

(** A context: [None] never signals ([context.Background()]); [Some (t, e)]
    is signalled from time [t] on and then reports [e]. *)
Definition Context : Type := option (Z * error).

Definition Context_background : Context := None.

Definition Err (ctx : Context) (w : World) : option error :=
  match ctx with
  | Some (t, e) => if t <=? clock w then Some e else None
  | None => None
  end.

(** The timer fires [max d 0] from now; the context wins when it is
    signalled by then. *)
Definition select (ctx : Context) (d : Duration) (w : World)
  : bool * World :=
  let fire := clock w + Z.max d 0 in
  match ctx with
  | Some (t, _) =>
      if t <=? fire
      then (true, mkWorld (Z.max (clock w) t) (streams w))
      else (false, mkWorld fire (streams w))
  | None => (false, mkWorld fire (streams w))
  end.

(** Reading a stream to its end returns what it held and leaves it empty;
    a stream that is not open fails. *)
Definition ReadAll (r : ReadCloser) (w : World)
  : option (list Byte.byte) * World :=
  match streams w !! r with
  | Some data => (Some data, mkWorld (clock w) (<[r := []]> (streams w)))
  | None => (None, w)
  end.

#[export] Instance runtime : Runtime World Context := {|
  strconv_ParseFloat := ParseFloat;
  json_Unmarshal := Unmarshal;
  float64_indefinite := fun _ => Int64.min_signed;
  io_ReadAll := ReadAll;
  ctx_Err := Err;
  select_Done_After := select
|}.

(** The bytes of a text in which an apostrophe stands for a double quote. *)
Definition bytes (s : string) : list Byte.byte :=
  map (fun c => byte_of_ascii (if Ascii.eqb c "'" then quote else c))
      (list_ascii_of_string s).

End Reference.

(** ** Concrete inputs

    Values the statements below name, and inputs on which the reference
    runtime runs the code. *)

(** The float64 values 1.5 and 3. *)
Definition float_1_5 : float64 :=
  SFdiv Float64.prec Float64.emax (Float64.of_int 3) (Float64.of_int 2).
Definition float_3 : float64 := Float64.of_int 3.

Module Examples.

Import Reference.

(** A 429 response whose only signal is in its live body stream. *)
Definition stream_only : RESTError :=
  mkRESTError (Some (mkResponse 429 ∅ (Some 7%nat))) None.

(** A world in which that stream holds a payload asking for three
    seconds. *)
Definition world_with_stream : World :=
  mkWorld 0 {[ 7%nat := bytes "{'retry_after': 3.0}" ]}.

(** A 429 response with a Retry-After header of 1.5 and a pre-read payload
    asking for three seconds. *)
Definition header_and_payload : RESTError :=
  mkRESTError
    (Some (mkResponse 429 {[ "Retry-After"%string := ["1.5"%string] ]} None))
    (Some (bytes "{'message': 'You are being rate limited.', 'retry_after': 3.0, 'global': false}")).

(** A 429 response without header, with the same pre-read payload. *)
Definition payload_only : RESTError :=
  mkRESTError
    (Some (mkResponse 429 ∅ None))
    (Some (bytes "{'message': 'You are being rate limited.', 'retry_after': 3.0, 'global': false}")).

(** A 429 response with no header, no payload and no stream. *)
Definition bare_429 : RESTError :=
  mkRESTError (Some (mkResponse 429 ∅ None)) None.

(** An operation that is rate limited on every call. *)
Definition always_429 : Operation World string :=
  fun w => (("partial"%string, Some (ErrREST header_and_payload)), w).

(** An operation that fails with an error that is not a REST error. *)
Definition always_fails : Operation World string :=
  fun w => ((EmptyString, Some (ErrString "some other error")), w).

(** An error-only operation that is rate limited on every call. *)
Definition always_429_err : ErrOperation World :=
  fun w => (Some (ErrREST bare_429), w).

(** An operation that succeeds on every call. *)
Definition always_ok : Operation World string :=
  fun w => (("ok"%string, None), w).

(** An operation that is rate limited as long as the clock stands at zero
    and succeeds afterwards. *)
Definition recovering : Operation World string :=
  fun w =>
    if clock w =? 0
    then (("partial"%string, Some (ErrREST header_and_payload)), w)
    else (("ok"%string, None), w).

(** A 429 response whose header asks for 200 seconds. *)
Definition hostile_429 : RESTError :=
  mkRESTError
    (Some (mkResponse 429 {[ "Retry-After"%string := ["200"%string] ]} None))
    None.

(** An operation that always gets that response. *)
Definition always_hostile : Operation World string :=
  fun w => ((EmptyString, Some (ErrREST hostile_429)), w).

(** An operation that always gets a 429 response without any signal. *)
Definition always_bare : Operation World string :=
  fun w => ((EmptyString, Some (ErrREST bare_429)), w).

(** An error-only operation that succeeds. *)
Definition ok_err : ErrOperation World := fun w => (None, w).

(** A context that is cancelled one second after the start. *)
Definition cancelled_after_1s : Context := Some (1 * Second, ErrCanceled).

Definition start : Machine World := mkMachine (mkWorld 0 ∅) [].

(** Responses with status 404 and 403. *)
Definition not_found_404 : RESTError :=
  mkRESTError (Some (mkResponse 404 ∅ None)) None.

Definition forbidden_403 : RESTError :=
  mkRESTError (Some (mkResponse 403 ∅ None)) None.

(** A pinned thread without tags. *)
Definition thread_42 : Channel :=
  {| ID := "42"; ParentID := "7"; Name := "Test Forum Post";
     OwnerID := "1"; Flags := 2; AppliedTags := [];
     ThreadMetadata_ := Some {| AutoArchiveDuration := 10080 |} |}.

(** The resource data of a post: planned, before it has an ID, and stored
    under the ID of [thread_42], with [name] changed or not. *)
Definition planned (pinned : bool) : ResourceData :=
  {| Id := EmptyString;
     attributes :=
       <["channel_id"%string := VString "7"]>
         (<["name"%string := VString "Test Forum Post"]>
            (<["message"%string := VString "hello"]>
               (<["pinned"%string := VBool pinned]> ∅)));
     HasChange := fun _ => false |}.

Definition stored (renamed : bool) : ResourceData :=
  {| Id := "42";
     attributes := attributes (planned true);
     HasChange := fun key => renamed && String.eqb key "name" |}.

(** A call that answers the same way whatever the world is. *)
Definition answers (thread : option Channel) (err : option error)
  : Operation World (option Channel) :=
  fun w => ((thread, err), w).

(** Sessions: one whose calls all fail the same way, one whose calls all
    succeed, and one that can do anything but edit. *)
Definition failing (restErr : RESTError) : @Session World :=
  {| ForumThreadStartComplex := fun _ _ _ => answers None (Some (ErrREST restErr));
     ChannelEditComplex := fun _ _ => answers None (Some (ErrREST restErr));
     Channel_ := fun _ => answers None (Some (ErrREST restErr));
     ChannelDelete := fun _ => answers None (Some (ErrREST restErr)) |}.

Definition healthy : @Session World :=
  {| ForumThreadStartComplex := fun _ _ _ => answers (Some thread_42) None;
     ChannelEditComplex := fun _ _ => answers (Some thread_42) None;
     Channel_ := fun _ => answers (Some thread_42) None;
     ChannelDelete := fun _ => answers (Some thread_42) None |}.

Definition read_only : @Session World :=
  {| ForumThreadStartComplex := fun _ _ _ => answers (Some thread_42) None;
     ChannelEditComplex :=
       fun _ _ => answers None (Some (ErrREST forbidden_403));
     Channel_ := fun _ => answers (Some thread_42) None;
     ChannelDelete := fun _ => answers (Some thread_42) None |}.

(** A context cancelled before the executor is called. *)
Definition cancelled : Context := Some (0, ErrCanceled).

End Examples.

(** * Properties *)

(** ** Machine arithmetic *)

Lemma wrap64_small z : Int64.in_range z -> wrap64 z = z.
Proof.
  unfold Int64.in_range, wrap64, min_signed, max_signed, half_modulus, modulus.
  intros H. rewrite Z.mod_small; lia.
Qed.

Lemma wrap64_in_range z : Int64.in_range (wrap64 z).
Proof.
  unfold Int64.in_range, wrap64, min_signed, max_signed, half_modulus, modulus.
  pose proof (Z.mod_pos_bound (z + 2 ^ 63) (2 ^ 64) ltac:(lia)). lia.
Qed.

(** A boolean check run on every integer of an initial segment holds at
    each of them. *)
Lemma forallb_Z_range (f : Z -> bool) (n : nat) :
  forallb f (map Z.of_nat (seq 0 n)) = true ->
  forall a, 0 <= a < Z.of_nat n -> f a = true.
Proof.
  intros H a Ha. rewrite forallb_forall in H. apply H.
  apply in_map_iff. exists (Z.to_nat a). split; [lia|].
  apply in_seq. lia.
Qed.

Ltac unfold_units :=
  unfold maxBackoff, baseBackoff, Second, Millisecond, Microsecond,
    Nanosecond in *.

(** ** calculateBackoff *)

(** The branch taken when the suggested wait is not used. *)
Lemma calculateBackoff_else attempt d :
  d <= 0 \/ maxBackoff <= d ->
  calculateBackoff attempt d = calculateBackoff attempt 0.
Proof.
  intros H. unfold calculateBackoff.
  replace ((0 <? d) && (d <? maxBackoff)) with false; [reflexivity|].
  symmetry. apply andb_false_iff.
  destruct H; [left; apply Z.ltb_ge | right; apply Z.ltb_ge]; lia.
Qed.

(** The branch taken when the suggested wait is used. *)
Lemma calculateBackoff_then attempt d :
  0 < d < maxBackoff ->
  calculateBackoff attempt d = wrap64 (d + 500 * Millisecond).
Proof.
  intros [Hpos Hlt]. unfold calculateBackoff.
  replace ((0 <? d) && (d <? maxBackoff)) with true; [reflexivity|].
  symmetry. apply andb_true_iff. split; apply Z.ltb_lt; assumption.
Qed.

(** C3. For every duration [d] with [0 < d < 120s] and every attempt index,
    [calculateBackoff attempt d] is exactly [d + 500ms]. *)
Theorem calculateBackoff_suggested attempt d :
  0 < d < 120 * Second ->
  calculateBackoff attempt d = d + 500 * Millisecond.
Proof.
  intros Hd. rewrite calculateBackoff_then by exact Hd.
  apply wrap64_small.
  unfold Int64.in_range, min_signed, max_signed, half_modulus.
  unfold_units. lia.
Qed.

Lemma calculateBackoff_suggested_witness :
  0 < 3 * Second < 120 * Second
  /\ calculateBackoff 0 (3 * Second) = 3 * Second + 500 * Millisecond.
Proof.
  split; [unfold_units; lia|].
  apply (calculateBackoff_suggested 0 (3 * Second)). unfold_units. lia.
Defined.

(** Within the range where [1s * 2^attempt] fits an int64, the fallback
    branch is the exponential sequence clamped to the ceiling. *)
Lemma calculateBackoff_in_range attempt d :
  0 <= attempt <= 33 ->
  d <= 0 \/ 120 * Second <= d ->
  calculateBackoff attempt d = exponential_sequence attempt.
Proof.
  intros Ha Hd. rewrite calculateBackoff_else by exact Hd.
  apply Z.eqb_eq.
  apply (forallb_Z_range
           (fun a => calculateBackoff a 0 =? exponential_sequence a) 34);
    [vm_compute; reflexivity | lia].
Qed.

(** C4, at the failing input. With 34 doublings the int64 product
    [baseBackoff * (1 << 34)] wraps to a negative number, which the clamp
    lets through; the sequence of the document is at its ceiling there. *)
Theorem calculateBackoff_overflow :
  calculateBackoff 34 0 = -1266874889709551616
  /\ exponential_sequence 34 = 120 * Second
  /\ calculateBackoff 64 0 = 0.
Proof. repeat split; vm_compute; reflexivity. Qed.

(** C10. The ceiling does not bound the result: a suggested wait between
    119.5s and 120s comes back with the buffer added, above 120s; every
    result is below 120.5s, and no smaller bound holds. *)
Theorem calculateBackoff_supremum :
  (forall attempt d,
      119 * Second + 500 * Millisecond < d < 120 * Second ->
      calculateBackoff attempt d = d + 500 * Millisecond
      /\ 120 * Second < calculateBackoff attempt d)
  /\ (forall attempt d,
         calculateBackoff attempt d < 120 * Second + 500 * Millisecond)
  /\ (forall bound,
         bound < 120 * Second + 500 * Millisecond ->
         exists attempt d, bound <= calculateBackoff attempt d).
Proof.
  assert (Hbuf : forall attempt d, 0 < d < 120 * Second ->
            calculateBackoff attempt d = d + 500 * Millisecond).
  { intros attempt d Hd. rewrite calculateBackoff_then by exact Hd.
    apply wrap64_small.
    unfold Int64.in_range, min_signed, max_signed, half_modulus.
    unfold_units. lia. }
  split; [|split].
  - intros attempt d Hd.
    assert (H : calculateBackoff attempt d = d + 500 * Millisecond)
      by (apply Hbuf; unfold_units; lia).
    split; [exact H|]. rewrite H. unfold_units. lia.
  - intros attempt d.
    assert (Hclamp : calculateBackoff attempt 0 <= 120 * Second).
    { unfold calculateBackoff. simpl andb. cbv iota.
      destruct (Z.ltb_spec maxBackoff
                  (wrap64 (baseBackoff * shl 1 (uint_of_int attempt))));
        unfold_units; lia. }
    destruct (Z_lt_le_dec 0 d) as [Hpos|Hneg];
      [destruct (Z_lt_le_dec d (120 * Second)) as [Hlt|Hge]|].
    + rewrite Hbuf by lia. unfold_units. lia.
    + rewrite calculateBackoff_else by (right; exact Hge).
      unfold_units. lia.
    + rewrite calculateBackoff_else by (left; exact Hneg).
      unfold_units. lia.
  - intros bound Hb. exists 0, (120 * Second - 1).
    rewrite Hbuf by (unfold_units; lia).
    unfold_units. lia.
Qed.

Lemma calculateBackoff_supremum_witness :
  (119 * Second + 500 * Millisecond < 119 * Second + 750 * Millisecond
     < 120 * Second)
  /\ 120 * Second < calculateBackoff 2 (119 * Second + 750 * Millisecond).
Proof.
  split; [unfold_units; lia|].
  apply (proj1 calculateBackoff_supremum 2 (119 * Second + 750 * Millisecond)).
  unfold_units. lia.
Defined.

(** ** parseRetryAfter *)

Section ParseRetryAfter.

Context {World Context : Type} `{RT : Runtime World Context}.

Lemma parseRetryAfter_no_response restErr w :
  Response_ restErr = None ->
  parseRetryAfter restErr w = (5 * Second, w).
Proof. intros H. unfold parseRetryAfter. rewrite H. reflexivity. Qed.

Lemma parseRetryAfter_header restErr resp w d :
  Response_ restErr = Some resp ->
  header_wait resp = Some d ->
  parseRetryAfter restErr w = (d, w).
Proof.
  intros H Hh. unfold parseRetryAfter. rewrite H.
  unfold header_wait in Hh.
  destruct (decide (Header_Get (Header_ resp) "Retry-After" = EmptyString))
    as [He|He]; [discriminate|].
  destruct (decide (Header_Get (Header_ resp) "Retry-After" <> EmptyString))
    as [_|Hn]; [|contradiction].
  destruct (strconv_ParseFloat (Header_Get (Header_ resp) "Retry-After"));
    simpl in Hh; [|discriminate].
  congruence.
Qed.

(** Without a usable header the function is what the two body sources
    make of it. *)
Lemma parseRetryAfter_no_header restErr resp w :
  Response_ restErr = Some resp ->
  header_wait resp = None ->
  parseRetryAfter restErr w =
    match body_wait restErr with
    | Some d => (d, w)
    | None =>
        match Body resp with
        | Some stream =>
            (default (5 * Second) (stream_wait resp w),
             snd (io_ReadAll stream w))
        | None => (5 * Second, w)
        end
    end.
Proof.
  intros H Hh. unfold parseRetryAfter. rewrite H.
  unfold header_wait in Hh.
  assert (Hfall :
    (if decide (Header_Get (Header_ resp) "Retry-After" <> EmptyString)
     then strconv_ParseFloat (Header_Get (Header_ resp) "Retry-After")
     else None) = None).
  { destruct (decide (Header_Get (Header_ resp) "Retry-After" = EmptyString))
      as [He|He];
    destruct (decide (Header_Get (Header_ resp) "Retry-After" <> EmptyString))
      as [Hn|Hn]; try reflexivity; try contradiction.
    destruct (strconv_ParseFloat (Header_Get (Header_ resp) "Retry-After"));
      [discriminate|reflexivity]. }
  assert (Hrest : forall (A : Type) (k : float64 -> A) (f : A),
    (if decide (Header_Get (Header_ resp) "Retry-After" <> EmptyString)
     then match strconv_ParseFloat
                  (Header_Get (Header_ resp) "Retry-After") with
          | Some seconds => k seconds
          | None => f
          end
     else f) = f).
  { intros A k f.
    destruct (decide (Header_Get (Header_ resp) "Retry-After" <> EmptyString));
      [|reflexivity].
    destruct (strconv_ParseFloat (Header_Get (Header_ resp) "Retry-After"));
      [discriminate|reflexivity]. }
  rewrite Hrest. unfold body_wait, stream_wait.
  destruct (ResponseBody restErr) as [data|].
  - destruct (payload_wait data); [reflexivity|].
    destruct (Body resp) as [stream|]; [|reflexivity].
    destruct (io_ReadAll stream w) as [[body|] w']; simpl;
      [destruct (payload_wait body)|]; reflexivity.
  - destruct (Body resp) as [stream|]; [|reflexivity].
    destruct (io_ReadAll stream w) as [[body|] w']; simpl;
      [destruct (payload_wait body)|]; reflexivity.
Qed.

Lemma header_wait_parsed resp s seconds :
  Header_Get (Header_ resp) "Retry-After" = s ->
  s <> EmptyString ->
  strconv_ParseFloat s = Some seconds ->
  header_wait resp = Some (seconds_to_Duration seconds).
Proof.
  intros Hs Hne Hp. unfold header_wait. rewrite Hs.
  destruct (decide (s = EmptyString)); [contradiction|].
  rewrite Hp. reflexivity.
Qed.

Lemma header_wait_absent resp :
  Header_Get (Header_ resp) "Retry-After" = EmptyString ->
  header_wait resp = None.
Proof.
  intros Hs. unfold header_wait. rewrite Hs.
  destruct (decide (EmptyString = EmptyString)); [reflexivity|contradiction].
Qed.

Lemma seconds_to_Duration_1_5 : seconds_to_Duration float_1_5 = 1500 * Millisecond.
Proof. reflexivity. Qed.

Lemma seconds_to_Duration_3 : seconds_to_Duration float_3 = 3 * Second.
Proof. reflexivity. Qed.

(** C2. A Retry-After header that parses as a float decides the result,
    whatever payload or stream comes with it; the header [1.5] gives
    exactly 1500 milliseconds; without header, a pre-read payload whose
    [retry_after] is 3.0 gives exactly 3 seconds. *)
Theorem parseRetryAfter_priority :
  (forall restErr resp s seconds w,
      Response_ restErr = Some resp ->
      Header_Get (Header_ resp) "Retry-After" = s ->
      s <> EmptyString ->
      strconv_ParseFloat s = Some seconds ->
      parseRetryAfter restErr w = (seconds_to_Duration seconds, w))
  /\ (forall restErr resp w,
         Response_ restErr = Some resp ->
         Header_Get (Header_ resp) "Retry-After" = "1.5"%string ->
         strconv_ParseFloat "1.5" = Some float_1_5 ->
         parseRetryAfter restErr w = (1500 * Millisecond, w))
  /\ (forall restErr resp data rateLimitErr w,
         Response_ restErr = Some resp ->
         Header_Get (Header_ resp) "Retry-After" = EmptyString ->
         ResponseBody restErr = Some data ->
         json_Unmarshal data = Some rateLimitErr ->
         RetryAfter rateLimitErr = float_3 ->
         parseRetryAfter restErr w = (3 * Second, w)).
Proof.
  split; [|split].
  - intros restErr resp s seconds w H Hs Hne Hp.
    eapply parseRetryAfter_header; [exact H|].
    eapply header_wait_parsed; eassumption.
  - intros restErr resp w H Hs Hp.
    rewrite <- seconds_to_Duration_1_5.
    eapply parseRetryAfter_header; [exact H|].
    eapply header_wait_parsed; [exact Hs|discriminate|exact Hp].
  - intros restErr resp data r w H Hs Hb Hu Hr.
    rewrite (parseRetryAfter_no_header _ _ _ H (header_wait_absent _ Hs)).
    unfold body_wait, payload_wait. rewrite Hb, Hu, Hr. reflexivity.
Qed.

(** C8. [parseRetryAfter] always returns a duration. Without a response,
    or when neither the header, nor the pre-read payload, nor the body
    stream gives a usable signal, the duration is the 5 second fallback;
    a source that is absent or malformed hands over to the next one. *)
Theorem parseRetryAfter_fallback :
  (forall restErr w, exists d w', parseRetryAfter restErr w = (d, w'))
  /\ (forall restErr w,
         no_signal restErr w ->
         fst (parseRetryAfter restErr w) = 5 * Second)
  /\ (forall restErr resp w d,
         Response_ restErr = Some resp ->
         header_wait resp = None ->
         body_wait restErr = Some d ->
         parseRetryAfter restErr w = (d, w))
  /\ (forall restErr resp w d,
         Response_ restErr = Some resp ->
         header_wait resp = None ->
         body_wait restErr = None ->
         stream_wait resp w = Some d ->
         fst (parseRetryAfter restErr w) = d).
Proof.
  split; [|split; [|split]].
  - intros restErr w. destruct (parseRetryAfter restErr w) as [d w'].
    exists d, w'. reflexivity.
  - intros restErr w Hn. unfold no_signal in Hn.
    destruct (Response_ restErr) as [resp|] eqn:H.
    + destruct Hn as (Hh & Hb & Hs).
      rewrite (parseRetryAfter_no_header _ _ _ H Hh), Hb.
      destruct (Body resp); [|reflexivity]. rewrite Hs. reflexivity.
    + rewrite parseRetryAfter_no_response by exact H. reflexivity.
  - intros restErr resp w d H Hh Hb.
    rewrite (parseRetryAfter_no_header _ _ _ H Hh), Hb. reflexivity.
  - intros restErr resp w d H Hh Hb Hs.
    rewrite (parseRetryAfter_no_header _ _ _ H Hh), Hb.
    unfold stream_wait in Hs.
    destruct (Body resp) as [stream|] eqn:HB; [|discriminate].
    unfold stream_wait. rewrite HB.
    destruct (fst (io_ReadAll stream w)); [|discriminate].
    rewrite Hs. reflexivity.
Qed.

(** Whenever the wait is decided without the stream, the world is left as
    it was. *)
Lemma parseRetryAfter_frame restErr w :
  decided_without_stream restErr ->
  snd (parseRetryAfter restErr w) = w.
Proof.
  unfold decided_without_stream. intros Hd.
  destruct (Response_ restErr) as [resp|] eqn:H.
  - destruct (header_wait resp) as [d|] eqn:Hh.
    + rewrite (parseRetryAfter_header _ _ _ _ H Hh). reflexivity.
    + rewrite (parseRetryAfter_no_header _ _ _ H Hh).
      destruct (body_wait restErr) as [d|] eqn:Hb; [reflexivity|].
      destruct Hd as [Hd|[Hd|Hd]]; try congruence.
      rewrite Hd. reflexivity.
  - rewrite parseRetryAfter_no_response by exact H. reflexivity.
Qed.

(** C5, as amended. [calculateBackoff] depends on its two arguments only.
    [parseRetryAfter] leaves the world as it was and gives the same
    duration when called again, whenever the wait is decided without the
    live body stream: no response, a header that parses, a usable pre-read
    payload, or no stream attached. *)
Theorem parseRetryAfter_repeatable :
  (forall attempt1 attempt2 d1 d2,
      attempt1 = attempt2 -> d1 = d2 ->
      calculateBackoff attempt1 d1 = calculateBackoff attempt2 d2)
  /\ (forall restErr w,
         decided_without_stream restErr ->
         snd (parseRetryAfter restErr w) = w
         /\ parseRetryAfter restErr (snd (parseRetryAfter restErr w))
            = parseRetryAfter restErr w).
Proof.
  split.
  - intros; subst; reflexivity.
  - intros restErr w Hd.
    pose proof (parseRetryAfter_frame restErr w Hd) as Hf.
    split; [exact Hf|]. rewrite Hf. reflexivity.
Qed.

End ParseRetryAfter.

#[local] Existing Instance Reference.runtime.

Lemma parseRetryAfter_priority_witness :
  ResponseBody Examples.header_and_payload <> None
  /\ strconv_ParseFloat "1.5" = Some float_1_5
  /\ parseRetryAfter Examples.header_and_payload Examples.world_with_stream
     = (1500 * Millisecond, Examples.world_with_stream).
Proof.
  split; [discriminate|]. split; [vm_compute; reflexivity|].
  refine (proj1 (proj2 (@parseRetryAfter_priority _ _ Reference.runtime))
            Examples.header_and_payload _ _ eq_refl _ _).
  - vm_compute; reflexivity.
  - vm_compute; reflexivity.
Defined.

Lemma parseRetryAfter_fallback_witness :
  no_signal Examples.bare_429 Examples.world_with_stream
  /\ fst (parseRetryAfter Examples.bare_429 Examples.world_with_stream)
     = 5 * Second.
Proof.
  assert (H : no_signal Examples.bare_429 Examples.world_with_stream)
    by (vm_compute; repeat split; reflexivity).
  split; [exact H|].
  exact (proj1 (proj2 (@parseRetryAfter_fallback _ _ Reference.runtime))
           Examples.bare_429 Examples.world_with_stream H).
Defined.

(** C5, as stated, fails: a response whose signal is in the live stream
    gives three seconds at the first call, which drains the stream, and the
    fallback at the second. *)
Lemma parseRetryAfter_not_repeatable :
  ~ (forall (World Context : Type) (RT : Runtime World Context)
            (restErr : RESTError) (w : World),
        fst (parseRetryAfter restErr (snd (parseRetryAfter restErr w)))
        = fst (parseRetryAfter restErr w)).
Proof.
  intros H.
  specialize (H _ _ Reference.runtime
                Examples.stream_only Examples.world_with_stream).
  vm_compute in H. discriminate H.
Qed.

Lemma parseRetryAfter_repeatable_witness :
  decided_without_stream Examples.header_and_payload
  /\ parseRetryAfter Examples.header_and_payload
       (snd (parseRetryAfter Examples.header_and_payload
               Examples.world_with_stream))
     = parseRetryAfter Examples.header_and_payload Examples.world_with_stream.
Proof.
  assert (H : decided_without_stream Examples.header_and_payload)
    by (right; right; reflexivity).
  split; [exact H|].
  exact (proj2 (proj2 (@parseRetryAfter_repeatable _ _ Reference.runtime)
                  Examples.header_and_payload Examples.world_with_stream H)).
Defined.

(** ** The event log *)

Lemma invocations_app l1 l2 :
  invocations (l1 ++ l2) = (invocations l1 + invocations l2)%nat.
Proof.
  induction l1 as [|[e|d c] l1 IH]; simpl; [reflexivity| |exact IH].
  rewrite IH. reflexivity.
Qed.

Lemma waits_app l1 l2 : waits (l1 ++ l2) = waits l1 ++ waits l2.
Proof.
  induction l1 as [|[e|d c] l1 IH]; simpl; [reflexivity|exact IH|].
  rewrite IH. reflexivity.
Qed.

Lemma last_invocation_cons_invoked e l :
  last_invocation (Invoked e :: l) =
    Some (default e (last_invocation l)).
Proof. simpl. destruct (last_invocation l); reflexivity. Qed.

Lemma last_invocation_none l :
  last_invocation l = None -> invocations l = O.
Proof.
  induction l as [|[e|d c] l IH]; simpl; intros H;
    [reflexivity | destruct (last_invocation l); discriminate | exact (IH H)].
Qed.

(** ** executeWithRetry *)

Section Executor.

Context {World Context : Type} `{RT : Runtime World Context}.
Context {T : Type} `{ZT : ZeroValue T}.

Implicit Types (ctx : Context) (operation : Operation World T)
  (m : Machine World).

Lemma executeWithRetry_unfold ctx operation :
  executeWithRetry ctx operation
  = retry_loop ctx operation 5 0 zero_value None.
Proof. reflexivity. Qed.

(** One iteration that finds the context signalled. *)
Lemma retry_loop_cancelled ctx operation n attempt result err m ce :
  ctx_Err ctx (world m) = Some ce ->
  retry_loop ctx operation (S n) attempt result err m
  = ((result, Some ce), m).
Proof.
  intros H. cbn [retry_loop]. unfold bind, ctxErr, ret. rewrite H.
  cbv beta iota. rewrite H. reflexivity.
Qed.

(** One iteration whose invocation succeeds or fails with an error that
    is not retried. *)
Lemma retry_loop_return ctx operation n attempt result err m r e w' :
  ctx_Err ctx (world m) = None ->
  operation (world m) = ((r, e), w') ->
  from_option retryable false e = false ->
  retry_loop ctx operation (S n) attempt result err m
  = ((r, e), mkMachine w' (log m ++ [Invoked e])).
Proof.
  intros Hc Ho Hr. cbn [retry_loop]. unfold bind, ctxErr, invoke, ret.
  rewrite Hc, Ho. cbv beta iota zeta delta [world log fst snd].
  destruct e as [[restErr| | | |]|]; try reflexivity.
  cbn in Hr. rewrite Hr. reflexivity.
Qed.

(** One iteration whose invocation is rate limited. *)
Lemma retry_loop_rate_limited ctx operation n attempt result err m
      r restErr w1 suggested w2 done w3 :
  ctx_Err ctx (world m) = None ->
  operation (world m) = ((r, Some (ErrREST restErr)), w1) ->
  is_rate_limited restErr = true ->
  parseRetryAfter restErr w1 = (suggested, w2) ->
  select_Done_After ctx (calculateBackoff attempt suggested) w2
  = (done, w3) ->
  retry_loop ctx operation (S n) attempt result err m
  = let m3 :=
      mkMachine w3
        (log m ++ [Invoked (Some (ErrREST restErr));
                   Waited (calculateBackoff attempt suggested) done]) in
    if done then ((r, ctx_Err ctx w3), m3)
    else retry_loop ctx operation n (attempt + 1) r
           (Some (ErrREST restErr)) m3.
Proof.
  intros Hc Ho Hr Hp Hs.
  cbn [retry_loop]. unfold bind, ctxErr, invoke, lift, selectDone, ret.
  rewrite Hc, Ho. cbv beta iota zeta delta [world log fst snd].
  rewrite Hr, Hp. cbv beta iota zeta. rewrite Hs. rewrite <- app_assoc.
  destruct done; reflexivity.
Qed.

(** Whatever the operation and the context do, a run of the loop appends
    to the log, invokes the operation at most once per remaining
    iteration, and waits at most once per invocation. *)
Lemma retry_loop_log ctx operation n :
  forall attempt result err m,
  exists events,
    log (snd (retry_loop ctx operation n attempt result err m))
    = log m ++ events
    /\ (invocations events <= n)%nat
    /\ (length (waits events) <= invocations events)%nat.
Proof.
  induction n as [|n IH]; intros attempt result err m.
  - exists []. simpl. rewrite app_nil_r. repeat split; lia.
  - destruct (ctx_Err ctx (world m)) as [ce|] eqn:Hc.
    + rewrite (retry_loop_cancelled _ _ _ _ _ _ _ _ Hc).
      exists []. simpl. rewrite app_nil_r. repeat split; lia.
    + destruct (operation (world m)) as [[r e] w1] eqn:Ho.
      destruct (from_option retryable false e) eqn:Hr.
      * destruct e as [[restErr| | | |]|]; simpl in Hr; try discriminate.
        destruct (parseRetryAfter restErr w1) as [suggested w2] eqn:Hp.
        destruct (select_Done_After ctx
                    (calculateBackoff attempt suggested) w2)
          as [done w3] eqn:Hs.
        rewrite (retry_loop_rate_limited ctx operation n attempt result
                   err m r restErr w1 suggested w2 done w3 Hc Ho Hr Hp Hs).
        cbv zeta. destruct done.
        -- eexists. simpl. split; [reflexivity|]. simpl. split; lia.
        -- match goal with
           | |- context [retry_loop _ _ n ?a ?r0 ?e0 ?m0] =>
               destruct (IH a r0 e0 m0) as (events & Hl & Hi & Hw)
           end.
           eexists. rewrite Hl. simpl. rewrite <- app_assoc.
           split; [reflexivity|].
           simpl. split; lia.
      * rewrite (retry_loop_return _ _ _ _ _ _ _ _ _ _ Hc Ho Hr).
        eexists. simpl. split; [reflexivity|]. simpl. split; lia.
Qed.

Section AlwaysRateLimited.

Variables (ctx : Context) (operation : Operation World T).
Hypothesis Hop : forall w, exists r restErr w',
    operation w = ((r, Some (ErrREST restErr)), w')
    /\ is_rate_limited restErr = true.
Hypothesis Hctx : forall w, ctx_Err ctx w = None.
Hypothesis Hsel : forall d w, fst (select_Done_After ctx d w) = false.

Lemma retry_loop_exhausts n :
  forall attempt result err m,
  exists r events m',
    retry_loop ctx operation n attempt result err m
    = ((r, Some (max_retries_exceeded (reported events err))), m')
    /\ log m' = log m ++ events
    /\ invocations events = n
    /\ length (waits events) = n
    /\ (forall e, last_invocation events = Some e ->
          exists restErr, e = Some (ErrREST restErr)).
Proof.
  induction n as [|n IH]; intros attempt result err m.
  - exists result, [], m. simpl. rewrite app_nil_r.
    repeat split. intros e He. discriminate.
  - destruct (Hop (world m)) as (r & restErr & w1 & Ho & Hr).
    destruct (parseRetryAfter restErr w1) as [suggested w2] eqn:Hp.
    pose proof (Hsel (calculateBackoff attempt suggested) w2) as Hf.
    destruct (select_Done_After ctx
                (calculateBackoff attempt suggested) w2)
      as [done w3] eqn:Hs.
    simpl in Hf. subst done.
    rewrite (retry_loop_rate_limited ctx operation n attempt result
               err m r restErr w1 suggested w2 false w3
               (Hctx _) Ho Hr Hp Hs).
    cbv zeta iota.
    match goal with
    | |- context [retry_loop _ _ n ?a ?r0 ?e0 ?m0] =>
        destruct (IH a r0 e0 m0) as (r' & events & m' & Hl & Hlog & Hi & Hw & Hlast)
    end.
    exists r', (Invoked (Some (ErrREST restErr))
                :: Waited (calculateBackoff attempt suggested) false
                :: events), m'.
    split; [|split; [|split; [|split]]].
    + rewrite Hl. unfold reported. simpl.
      destruct (last_invocation events); reflexivity.
    + rewrite Hlog. simpl. rewrite <- app_assoc. reflexivity.
    + simpl. rewrite Hi. reflexivity.
    + simpl. rewrite Hw. reflexivity.
    + intros e He. simpl in He.
      destruct (last_invocation events) as [e'|] eqn:Hl'.
      * inversion He; subst. apply Hlast. reflexivity.
      * inversion He; subst. eauto.
Qed.

End AlwaysRateLimited.

End Executor.

Section ExecutorClaims.

Context {World Context : Type} `{RT : Runtime World Context}.
Context {T : Type} `{ZT : ZeroValue T}.

(** C1. An operation that is rate limited (a REST error with status 429)
    at every invocation, under a context that is never signalled, is
    invoked exactly [maxRetries] = 5 times; the error returned then wraps
    the error of the last invocation behind the text
    [max retries (5) exceeded: ]. For every operation and context, a run
    invokes the operation at most 5 times. *)
Theorem executeWithRetry_bounded :
  (forall (ctx : Context) (operation : Operation World T),
      (forall w, exists r restErr w',
          operation w = ((r, Some (ErrREST restErr)), w')
          /\ is_rate_limited restErr = true) ->
      (forall w, ctx_Err ctx w = None) ->
      (forall d w, fst (select_Done_After ctx d w) = false) ->
      forall m, exists r last events m',
        executeWithRetry ctx operation m
        = ((r, Some (ErrWrap "max retries (5) exceeded: " last)), m')
        /\ log m' = log m ++ events
        /\ invocations events = 5%nat
        /\ last_invocation events = Some (Some last))
  /\ (forall (ctx : Context) (operation : Operation World T) m,
         exists events,
           log (snd (executeWithRetry ctx operation m)) = log m ++ events
           /\ (invocations events <= 5)%nat).
Proof.
  split.
  - intros ctx operation Hop Hctx Hsel m.
    rewrite executeWithRetry_unfold.
    destruct (retry_loop_exhausts ctx operation Hop Hctx Hsel 5 0
                zero_value None m)
      as (r & events & m' & Hrun & Hlog & Hinv & _ & Hlast).
    destruct (last_invocation events) as [e|] eqn:Hl.
    + destruct (Hlast e eq_refl) as (restErr & ->).
      exists r, (ErrREST restErr), events, m'.
      rewrite Hrun. unfold reported. rewrite Hl. simpl.
      repeat split; assumption.
    + apply last_invocation_none in Hl. rewrite Hl in Hinv. discriminate.
  - intros ctx operation m. rewrite executeWithRetry_unfold.
    destruct (retry_loop_log ctx operation 5 0 zero_value None m)
      as (events & Hl & Hi & _).
    exists events. split; assumption.
Qed.

(** C6, as amended. When the context is not signalled at the call and the
    first invocation fails with an error that is not a REST error with
    status 429 (another status, a REST error without response, any other
    error), that error is returned as it is, with the result of the
    invocation, after exactly one invocation and no wait. *)
Theorem executeWithRetry_no_retry
    (ctx : Context) (operation : Operation World T) m r e w' :
  ctx_Err ctx (world m) = None ->
  operation (world m) = ((r, Some e), w') ->
  retryable e = false ->
  executeWithRetry ctx operation m
  = ((r, Some e), mkMachine w' (log m ++ [Invoked (Some e)])).
Proof.
  intros Hc Ho Hr. rewrite executeWithRetry_unfold.
  apply retry_loop_return; assumption.
Qed.

(** C7. When the context is already signalled at the call, the executor
    returns the context's error with the zero value of the result type,
    and the operation is not invoked: the world and the log are as they
    were. *)
Theorem executeWithRetry_cancelled
    (ctx : Context) (operation : Operation World T) m ce :
  ctx_Err ctx (world m) = Some ce ->
  executeWithRetry ctx operation m = ((zero_value, Some ce), m).
Proof.
  intros Hc. rewrite executeWithRetry_unfold.
  apply retry_loop_cancelled. exact Hc.
Qed.

End ExecutorClaims.

Section NoResult.

Context {World Context : Type} `{RT : Runtime World Context}.

(** The loop run on the adapted operation is the policy run on the
    operation itself, with the placeholder beside the error. *)
Lemma retry_loop_adapt (ctx : Context) (operation : ErrOperation World) n :
  forall attempt err m,
    retry_loop ctx (adapt operation) n attempt tt err m
    = let '(e, m') := policy_no_result ctx operation n attempt err m in
      ((tt, e), m').
Proof.
  induction n as [|n IH]; intros attempt err m; [reflexivity|].
  cbn [retry_loop policy_no_result].
  unfold bind, ctxErr, invoke, invoke_err, lift, selectDone, ret, adapt.
  destruct (ctx_Err ctx (world m)) as [ce|]; [reflexivity|].
  destruct (operation (world m)) as [e w1].
  cbv beta iota zeta delta [world log fst snd].
  destruct e as [[restErr| | | |]|]; try reflexivity.
  cbn [retryable]. destruct (is_rate_limited restErr); [|reflexivity].
  destruct (parseRetryAfter restErr w1) as [suggested w2].
  cbv beta iota zeta.
  destruct (select_Done_After ctx (calculateBackoff attempt suggested) w2)
    as [done w3].
  destruct done; [reflexivity|]. apply IH.
Qed.

(** C9. [executeWithRetryNoResult] returns the error component of
    [executeWithRetry] run on the operation adapted with the empty
    placeholder, and leaves the same world and log; this is the retry
    policy of the document applied to the operation directly. *)
Theorem executeWithRetryNoResult_refines
    (ctx : Context) (operation : ErrOperation World) m :
  executeWithRetryNoResult ctx operation m
  = (let '((_, err), m') :=
       executeWithRetry (T := unit) ctx (adapt operation) m in
     (err, m'))
  /\ executeWithRetryNoResult ctx operation m
     = policy_no_result ctx operation (Z.to_nat maxRetries) 0 None m.
Proof.
  split.
  - unfold executeWithRetryNoResult, bind, ret.
    destruct (executeWithRetry ctx (adapt operation) m) as [[u err] m'].
    reflexivity.
  - unfold executeWithRetryNoResult, bind, ret, executeWithRetry.
    change (Z.to_nat (maxRetries - 0)) with (Z.to_nat maxRetries).
    change (zero_value : unit) with tt.
    rewrite retry_loop_adapt.
    destruct (policy_no_result ctx operation (Z.to_nat maxRetries) 0 None m).
    reflexivity.
Qed.

End NoResult.

(** *** The executor on the reference runtime *)

Lemma executeWithRetry_bounded_witness :
  exists r last events m',
    executeWithRetry Reference.Context_background Examples.always_429
      Examples.start
    = ((r, Some (ErrWrap "max retries (5) exceeded: " last)), m')
    /\ log m' = log Examples.start ++ events
    /\ invocations events = 5%nat
    /\ last_invocation events = Some (Some last).
Proof.
  apply (proj1 (@executeWithRetry_bounded _ _ Reference.runtime string _)
           Reference.Context_background Examples.always_429).
  - intros w. exists "partial"%string, Examples.header_and_payload, w.
    split; reflexivity.
  - intros w. reflexivity.
  - intros d w. reflexivity.
Defined.

(** C6, as stated, fails: with a context that is already cancelled the
    operation is not invoked at all and the error returned is the one of
    the context. *)
Lemma executeWithRetry_no_retry_cancelled :
  ~ (forall (World Context : Type) (RT : Runtime World Context)
            (ctx : Context) (operation : Operation World string)
            (m : Machine World) r e w',
        operation (world m) = ((r, Some e), w') ->
        retryable e = false ->
        snd (fst (executeWithRetry ctx operation m)) = Some e
        /\ invocations (log (snd (executeWithRetry ctx operation m)))
           = S (invocations (log m))).
Proof.
  intros H.
  destruct (H _ _ Reference.runtime Examples.cancelled Examples.always_fails
              Examples.start EmptyString (ErrString "some other error")
              (world Examples.start) eq_refl eq_refl) as [He _].
  vm_compute in He. discriminate He.
Qed.

Lemma executeWithRetry_no_retry_witness :
  executeWithRetry Reference.Context_background Examples.always_fails
    Examples.start
  = ((EmptyString, Some (ErrString "some other error")),
     mkMachine (world Examples.start)
       [Invoked (Some (ErrString "some other error"))]).
Proof.
  apply (@executeWithRetry_no_retry _ _ Reference.runtime string _
           Reference.Context_background Examples.always_fails Examples.start);
    reflexivity.
Defined.

Lemma executeWithRetry_cancelled_witness :
  ctx_Err Examples.cancelled (world Examples.start) = Some ErrCanceled
  /\ executeWithRetry Examples.cancelled Examples.always_429 Examples.start
     = ((EmptyString, Some ErrCanceled), Examples.start).
Proof.
  split; [reflexivity|].
  apply (@executeWithRetry_cancelled _ _ Reference.runtime string _
           Examples.cancelled Examples.always_429 Examples.start).
  reflexivity.
Defined.

(** * Further properties of the code *)

(** ** calculateBackoff beyond the claims *)

(** X1. For attempts 0 to 33 and a suggested wait that is not used (zero,
    negative, or at least 120s), the result is [1s * 2^attempt] clamped to
    120s. *)
Theorem calculateBackoff_exponential attempt d :
  0 <= attempt <= 33 ->
  d <= 0 \/ 120 * Second <= d ->
  calculateBackoff attempt d = Z.min (2 ^ attempt * Second) (120 * Second)
  /\ 1 * Second <= calculateBackoff attempt d <= 120 * Second.
Proof.
  intros Ha Hd. rewrite calculateBackoff_in_range by assumption.
  unfold exponential_sequence.
  assert (H : 1 <= 2 ^ attempt) by (apply Z.pow_le_mono_r with (b := 0); lia).
  unfold_units. split; [f_equal; lia | lia].
Qed.

Lemma calculateBackoff_exponential_witness :
  calculateBackoff 4 (200 * Second) = 16 * Second.
Proof.
  change (16 * Second) with (Z.min (2 ^ 4 * Second) (120 * Second)).
  apply (calculateBackoff_exponential 4 (200 * Second)).
  - lia.
  - right. unfold_units. lia.
Defined.

(** [1 << uint(attempt)] times one second is zero in int64 for every attempt
    that is negative or at least 55. *)
Lemma shifted_second_vanishes attempt :
  Int64.in_range attempt ->
  attempt < 0 \/ 55 <= attempt ->
  wrap64 (baseBackoff * shl 1 (uint_of_int attempt)) = 0.
Proof.
  intros Hr Ha.
  destruct (Z_lt_le_dec attempt 64) as [Hlt|Hge];
    [destruct (Z_lt_le_dec attempt 0) as [Hneg|Hpos]|].
  - unfold shl, uint_of_int.
    unfold Int64.in_range, min_signed, max_signed, half_modulus in Hr.
    replace (64 <=? attempt mod modulus) with true; [reflexivity|].
    symmetry. apply Z.leb_le. unfold modulus.
    replace (attempt mod 2 ^ 64) with (attempt + 2 ^ 64); [lia|].
    apply Z.mod_unique with (q := -1); lia.
  - apply Z.eqb_eq.
    assert (H : 0 <= attempt - 55 < Z.of_nat 9) by lia.
    pose proof (forallb_Z_range
                  (fun k => wrap64 (baseBackoff
                                    * shl 1 (uint_of_int (k + 55))) =? 0)
                  9 ltac:(vm_compute; reflexivity) (attempt - 55) H) as Hk.
    cbv beta in Hk. replace (attempt - 55 + 55) with attempt in Hk by lia.
    exact Hk.
  - unfold shl, uint_of_int.
    unfold Int64.in_range, min_signed, max_signed, half_modulus in Hr.
    replace (64 <=? attempt mod modulus) with true; [reflexivity|].
    symmetry. apply Z.leb_le. unfold modulus.
    rewrite Z.mod_small; lia.
Qed.

(** X2. For an attempt index that is negative or at least 55 and a
    suggested wait that is not used, the result is zero: no wait at all. *)
Theorem calculateBackoff_vanishes attempt d :
  Int64.in_range attempt ->
  attempt < 0 \/ 55 <= attempt ->
  d <= 0 \/ 120 * Second <= d ->
  calculateBackoff attempt d = 0.
Proof.
  intros Hr Ha Hd. rewrite calculateBackoff_else by exact Hd.
  unfold calculateBackoff. simpl andb. cbv iota zeta.
  rewrite shifted_second_vanishes by assumption. reflexivity.
Qed.

Lemma calculateBackoff_vanishes_witness : calculateBackoff (-1) 0 = 0.
Proof.
  apply (calculateBackoff_vanishes (-1) 0).
  - unfold Int64.in_range, min_signed, max_signed, half_modulus. lia.
  - left. lia.
  - left. lia.
Defined.

(** For the attempts the retry loop can pass, the wait is longer than half
    a second and shorter than 120.5 seconds, whatever was suggested. *)
Lemma calculateBackoff_loop_bounds attempt d :
  0 <= attempt < maxRetries ->
  500 * Millisecond < calculateBackoff attempt d
  < 120 * Second + 500 * Millisecond.
Proof.
  intros Ha.
  assert (Hexp : 1 * Second <= calculateBackoff attempt 0 <= 120 * Second).
  { assert (H : 0 <= attempt < Z.of_nat 5) by (unfold maxRetries in Ha; lia).
    pose proof (forallb_Z_range
                  (fun a => (1 * Second <=? calculateBackoff a 0)
                            && (calculateBackoff a 0 <=? 120 * Second))
                  5 ltac:(vm_compute; reflexivity) attempt H) as Hk.
    cbv beta in Hk. apply andb_true_iff in Hk. destruct Hk as [H1 H2].
    apply Z.leb_le in H1. apply Z.leb_le in H2. lia. }
  destruct (Z_lt_le_dec 0 d) as [Hpos|Hneg];
    [destruct (Z_lt_le_dec d (120 * Second)) as [Hlt|Hge]|].
  - rewrite calculateBackoff_then by (unfold_units; lia).
    rewrite wrap64_small;
      unfold Int64.in_range, min_signed, max_signed, half_modulus;
      unfold_units; lia.
  - rewrite calculateBackoff_else by (right; exact Hge). unfold_units. lia.
  - rewrite calculateBackoff_else by (left; exact Hneg). unfold_units. lia.
Qed.

(** The same, with the sequence written out. *)
Lemma calculateBackoff_in_range_min attempt d :
  0 <= attempt <= 33 ->
  d <= 0 \/ 120 * Second <= d ->
  calculateBackoff attempt d = Z.min (2 ^ attempt * Second) (120 * Second).
Proof.
  intros Ha Hd. rewrite calculateBackoff_else by exact Hd.
  apply Z.eqb_eq.
  apply (forallb_Z_range
           (fun a => calculateBackoff a 0
                     =? Z.min (2 ^ a * Second) (120 * Second)) 34);
    [vm_compute; reflexivity | lia].
Qed.

(** ** executeWithRetry beyond the claims *)

Lemma waits_rounds l : waits (rounds l) = map snd l.
Proof.
  induction l as [|[e d] l IH]; [reflexivity|].
  cbn. f_equal. exact IH.
Qed.

Lemma invocations_rounds l : invocations (rounds l) = length l.
Proof.
  induction l as [|[e d] l IH]; [reflexivity|].
  cbn. f_equal. exact IH.
Qed.

Lemma last_rounds l :
  l <> [] -> exists d, last (rounds l) = Some (Waited d false).
Proof.
  induction l as [|[e d] l IH]; [congruence|]. intros _.
  destruct l as [|p l]; [exists d; reflexivity|].
  destruct IH as [d' Hd]; [discriminate|]. exists d'.
  change (rounds ((e, d) :: p :: l))
    with ([Invoked (Some (ErrREST e)); Waited d false] ++ rounds (p :: l)).
  rewrite last_app. rewrite Hd. reflexivity.
Qed.

Lemma is_not_found_not_retryable e :
  is_not_found e = true -> retryable e = false.
Proof.
  destruct e as [restErr| | | |]; try discriminate.
  unfold is_not_found, retryable, is_rate_limited.
  destruct (Response_ restErr) as [resp|]; [|discriminate].
  intros H. apply Z.eqb_eq in H. rewrite H. reflexivity.
Qed.

Section ExecutorExtras.

Context {World Context : Type} `{RT : Runtime World Context}.
Context {T : Type} `{ZT : ZeroValue T}.

Implicit Types (ctx : Context) (operation : Operation World T)
  (m : Machine World).

(** Without a usable signal the suggested wait is the 5 second fallback. *)
Lemma no_signal_fallback restErr w :
  no_signal restErr w -> fst (parseRetryAfter restErr w) = 5 * Second.
Proof.
  intros Hn. unfold no_signal in Hn.
  destruct (Response_ restErr) as [resp|] eqn:H.
  - destruct Hn as (Hh & Hb & Hs).
    rewrite (parseRetryAfter_no_header _ _ _ H Hh), Hb.
    destruct (Body resp); [|reflexivity]. rewrite Hs. reflexivity.
  - rewrite parseRetryAfter_no_response by exact H. reflexivity.
Qed.

(** X3. With a context that is not signalled, an operation that succeeds at
    its first invocation is invoked once: its result comes back with a nil
    error and there is no wait. *)
Theorem executeWithRetry_success ctx operation m r w' :
  ctx_Err ctx (world m) = None ->
  operation (world m) = ((r, None), w') ->
  executeWithRetry ctx operation m
  = ((r, None), mkMachine w' (log m ++ [Invoked None])).
Proof.
  intros Hc Ho. rewrite executeWithRetry_unfold.
  apply retry_loop_return; [exact Hc | exact Ho | reflexivity].
Qed.

(** X4. When the context is signalled during the wait that follows a
    rate-limited invocation, the executor returns the context's error with
    the result of that invocation and does not invoke the operation
    again. *)
Theorem executeWithRetry_cancelled_in_wait
    ctx operation m r restErr w1 suggested w2 w3 :
  ctx_Err ctx (world m) = None ->
  operation (world m) = ((r, Some (ErrREST restErr)), w1) ->
  is_rate_limited restErr = true ->
  parseRetryAfter restErr w1 = (suggested, w2) ->
  select_Done_After ctx (calculateBackoff 0 suggested) w2 = (true, w3) ->
  executeWithRetry ctx operation m
  = ((r, ctx_Err ctx w3),
     mkMachine w3
       (log m ++ [Invoked (Some (ErrREST restErr));
                  Waited (calculateBackoff 0 suggested) true])).
Proof.
  intros Hc Ho Hr Hp Hs. rewrite executeWithRetry_unfold.
  rewrite (retry_loop_rate_limited ctx operation 4 0 zero_value None m
             r restErr w1 suggested w2 true w3 Hc Ho Hr Hp Hs).
  reflexivity.
Qed.

(** X5. An operation that is rate limited once and succeeds when invoked
    again is invoked twice, with one wait between the invocations, computed
    for attempt 0; the second result comes back with a nil error. *)
Theorem executeWithRetry_recovers
    ctx operation m r restErr w1 suggested w2 w3 r' w4 :
  ctx_Err ctx (world m) = None ->
  operation (world m) = ((r, Some (ErrREST restErr)), w1) ->
  is_rate_limited restErr = true ->
  parseRetryAfter restErr w1 = (suggested, w2) ->
  select_Done_After ctx (calculateBackoff 0 suggested) w2 = (false, w3) ->
  ctx_Err ctx w3 = None ->
  operation w3 = ((r', None), w4) ->
  executeWithRetry ctx operation m
  = ((r', None),
     mkMachine w4
       (log m ++ [Invoked (Some (ErrREST restErr));
                  Waited (calculateBackoff 0 suggested) false;
                  Invoked None])).
Proof.
  intros Hc Ho Hr Hp Hs Hc' Ho'. rewrite executeWithRetry_unfold.
  rewrite (retry_loop_rate_limited ctx operation 4 0 zero_value None m
             r restErr w1 suggested w2 false w3 Hc Ho Hr Hp Hs).
  cbv zeta iota.
  rewrite (retry_loop_return ctx operation 3 (0 + 1) r
             (Some (ErrREST restErr))
             (mkMachine w3
                (log m ++ [Invoked (Some (ErrREST restErr));
                           Waited (calculateBackoff 0 suggested) false]))
             r' None w4 Hc' Ho' eq_refl).
  cbn [world log]. rewrite <- app_assoc. reflexivity.
Qed.

(** The loop waits at most once per invocation, invokes at most once per
    remaining iteration, and each wait lies between half a second and 120.5
    seconds. *)
Lemma retry_loop_invariant ctx operation n :
  forall attempt result err m,
    0 <= attempt -> attempt + Z.of_nat n <= maxRetries ->
    exists events,
      log (snd (retry_loop ctx operation n attempt result err m))
      = log m ++ events
      /\ (length (waits events) <= invocations events <= n)%nat
      /\ Forall (fun d => 500 * Millisecond < d
                          < 120 * Second + 500 * Millisecond)
           (waits events).
Proof.
  induction n as [|n IH]; intros attempt result err m Ha Hn.
  - exists []. cbn. rewrite app_nil_r. repeat split; try lia. constructor.
  - destruct (ctx_Err ctx (world m)) as [ce|] eqn:Hc.
    + rewrite (retry_loop_cancelled _ _ _ _ _ _ _ _ Hc).
      exists []. cbn. rewrite app_nil_r. repeat split; try lia. constructor.
    + destruct (operation (world m)) as [[r e] w1] eqn:Ho.
      destruct (from_option retryable false e) eqn:Hr.
      * destruct e as [[restErr| | | |]|]; simpl in Hr; try discriminate.
        destruct (parseRetryAfter restErr w1) as [suggested w2] eqn:Hp.
        destruct (select_Done_After ctx
                    (calculateBackoff attempt suggested) w2)
          as [done w3] eqn:Hs.
        rewrite (retry_loop_rate_limited ctx operation n attempt result
                   err m r restErr w1 suggested w2 done w3 Hc Ho Hr Hp Hs).
        assert (Hb : 500 * Millisecond < calculateBackoff attempt suggested
                     < 120 * Second + 500 * Millisecond)
          by (apply calculateBackoff_loop_bounds; lia).
        cbv zeta. destruct done.
        -- eexists. cbn [snd log]. split; [reflexivity|].
           cbn. split; [lia|]. repeat constructor; lia.
        -- match goal with
           | |- context [retry_loop _ _ n ?a ?r0 ?e0 ?m0] =>
               destruct (IH a r0 e0 m0 ltac:(lia) ltac:(lia))
                 as (events & Hl & Hi & Hw)
           end.
           eexists. rewrite Hl. cbn [log]. rewrite <- app_assoc.
           split; [reflexivity|].
           cbn. split; [lia|]. constructor; [lia|exact Hw].
      * rewrite (retry_loop_return _ _ _ _ _ _ _ _ _ _ Hc Ho Hr).
        eexists. cbn [snd log]. split; [reflexivity|].
        cbn. split; [lia|]. constructor.
Qed.

(** X6. Whatever the operation and the context do, a run waits at most once
    per invocation, invokes the operation at most five times, and every
    wait it asks for is longer than 500 milliseconds and shorter than 120.5
    seconds. *)
Theorem executeWithRetry_waits ctx operation m :
  exists events,
    log (snd (executeWithRetry ctx operation m)) = log m ++ events
    /\ (length (waits events) <= invocations events <= 5)%nat
    /\ Forall (fun d => 500 * Millisecond < d
                        < 120 * Second + 500 * Millisecond)
         (waits events).
Proof.
  rewrite executeWithRetry_unfold.
  apply retry_loop_invariant; unfold maxRetries; lia.
Qed.

Section Exhaustion.

Variables (ctx : Context) (operation : Operation World T).
Hypothesis Hop : forall w, exists r restErr w',
    operation w = ((r, Some (ErrREST restErr)), w')
    /\ is_rate_limited restErr = true.
Hypothesis Hctx : forall w, ctx_Err ctx w = None.
Hypothesis Hsel : forall d w, fst (select_Done_After ctx d w) = false.

(** The loop runs all its iterations as rate-limited rounds; when the wait
    of each round is a function [f] of the attempt index, the waits are [f]
    of the successive indices. *)
Lemma retry_loop_rounds n :
  forall attempt result err m,
    exists l,
      length l = n
      /\ log (snd (retry_loop ctx operation n attempt result err m))
         = log m ++ rounds l
      /\ (forall f : Z -> Duration,
             (forall w r restErr w1 a,
                 attempt <= a < attempt + Z.of_nat n ->
                 operation w = ((r, Some (ErrREST restErr)), w1) ->
                 calculateBackoff a (fst (parseRetryAfter restErr w1)) = f a) ->
             map snd l
             = map (fun k => f (attempt + Z.of_nat k)) (seq 0 n)).
Proof.
  induction n as [|n IH]; intros attempt result err m.
  - exists []. cbn. rewrite app_nil_r. repeat split.
  - destruct (Hop (world m)) as (r & restErr & w1 & Ho & Hr).
    destruct (parseRetryAfter restErr w1) as [suggested w2] eqn:Hp.
    pose proof (Hsel (calculateBackoff attempt suggested) w2) as Hfalse.
    destruct (select_Done_After ctx
                (calculateBackoff attempt suggested) w2)
      as [done w3] eqn:Hs.
    simpl in Hfalse. subst done.
    rewrite (retry_loop_rate_limited ctx operation n attempt result
               err m r restErr w1 suggested w2 false w3
               (Hctx _) Ho Hr Hp Hs).
    cbv zeta iota.
    match goal with
    | |- context [retry_loop _ _ n ?a ?r0 ?e0 ?m0] =>
        destruct (IH a r0 e0 m0) as (l & Hlen & Hlog & Hsched)
    end.
    exists ((restErr, calculateBackoff attempt suggested) :: l).
    split; [cbn; lia|]. split.
    + rewrite Hlog. cbn [log]. rewrite <- app_assoc. reflexivity.
    + intros f Hf. cbn [map snd seq]. f_equal.
      * rewrite Z.add_0_r.
        rewrite <- (Hf (world m) r restErr w1 attempt ltac:(lia) Ho).
        rewrite Hp. reflexivity.
      * rewrite (Hsched f).
        -- rewrite <- seq_shift, map_map. apply map_ext. intros k.
           f_equal. lia.
        -- intros w r' restErr' w1' a Ha Ho'. apply (Hf w r' restErr' w1');
             [lia|exact Ho'].
Qed.

End Exhaustion.

(** X7. When every invocation is rate limited and the context is never
    signalled, the run is five rounds of one invocation followed by one
    wait: the executor also waits after the fifth invocation, before it
    reports that the retries are exhausted. *)
Theorem executeWithRetry_waits_after_last ctx operation :
  (forall w, exists r restErr w',
      operation w = ((r, Some (ErrREST restErr)), w')
      /\ is_rate_limited restErr = true) ->
  (forall w, ctx_Err ctx w = None) ->
  (forall d w, fst (select_Done_After ctx d w) = false) ->
  forall m, exists l d,
    log (snd (executeWithRetry ctx operation m)) = log m ++ rounds l
    /\ length l = 5%nat
    /\ length (waits (rounds l)) = 5%nat
    /\ last (rounds l) = Some (Waited d false).
Proof.
  intros Hop Hctx Hsel m. rewrite executeWithRetry_unfold.
  destruct (retry_loop_rounds ctx operation Hop Hctx Hsel 5 0
              zero_value None m) as (l & Hlen & Hlog & _).
  destruct (last_rounds l) as [d Hd].
  { intros ->. discriminate Hlen. }
  exists l, d. rewrite waits_rounds, length_map. repeat split; assumption.
Qed.

(** X8. When every invocation is rate limited, the context is never
    signalled, and no suggested wait is usable (each is zero, negative, or
    at least 120 seconds), the five waits are 1, 2, 4, 8 and 16 seconds. *)
Theorem executeWithRetry_exponential_schedule ctx operation :
  (forall w, exists r restErr w',
      operation w = ((r, Some (ErrREST restErr)), w')
      /\ is_rate_limited restErr = true) ->
  (forall w, ctx_Err ctx w = None) ->
  (forall d w, fst (select_Done_After ctx d w) = false) ->
  (forall w r restErr w1,
      operation w = ((r, Some (ErrREST restErr)), w1) ->
      fst (parseRetryAfter restErr w1) <= 0
      \/ 120 * Second <= fst (parseRetryAfter restErr w1)) ->
  forall m, exists events,
    log (snd (executeWithRetry ctx operation m)) = log m ++ events
    /\ waits events
       = [1 * Second; 2 * Second; 4 * Second; 8 * Second; 16 * Second].
Proof.
  intros Hop Hctx Hsel Hbad m. rewrite executeWithRetry_unfold.
  destruct (retry_loop_rounds ctx operation Hop Hctx Hsel 5 0
              zero_value None m) as (l & Hlen & Hlog & Hsched).
  exists (rounds l). split; [exact Hlog|].
  rewrite waits_rounds.
  rewrite (Hsched (fun a => Z.min (2 ^ a * Second) (120 * Second))).
  - reflexivity.
  - intros w r restErr w1 a Ha Ho.
    apply calculateBackoff_in_range_min; [lia|].
    apply (Hbad w r restErr w1 Ho).
Qed.

(** X9. When every invocation is rate limited, the context is never
    signalled, and no response carries a usable signal, each of the five
    waits is 5.5 seconds: the 5 second fallback counts as a suggestion and
    the exponential sequence is not used. *)
Theorem executeWithRetry_fallback_schedule ctx operation :
  (forall w, exists r restErr w',
      operation w = ((r, Some (ErrREST restErr)), w')
      /\ is_rate_limited restErr = true) ->
  (forall w, ctx_Err ctx w = None) ->
  (forall d w, fst (select_Done_After ctx d w) = false) ->
  (forall w r restErr w1,
      operation w = ((r, Some (ErrREST restErr)), w1) ->
      no_signal restErr w1) ->
  forall m, exists events,
    log (snd (executeWithRetry ctx operation m)) = log m ++ events
    /\ waits events = repeat (5 * Second + 500 * Millisecond) 5.
Proof.
  intros Hop Hctx Hsel Hnone m. rewrite executeWithRetry_unfold.
  destruct (retry_loop_rounds ctx operation Hop Hctx Hsel 5 0
              zero_value None m) as (l & Hlen & Hlog & Hsched).
  exists (rounds l). split; [exact Hlog|].
  rewrite waits_rounds.
  rewrite (Hsched (fun _ => 5 * Second + 500 * Millisecond)).
  - reflexivity.
  - intros w r restErr w1 a Ha Ho.
    rewrite (no_signal_fallback restErr w1 (Hnone w r restErr w1 Ho)).
    apply calculateBackoff_then. unfold_units. lia.
Qed.

End ExecutorExtras.

(** *** The executor on the reference runtime, continued *)

Lemma executeWithRetry_success_witness :
  executeWithRetry Reference.Context_background Examples.always_ok
    Examples.start
  = (("ok"%string, None),
     mkMachine (world Examples.start) [Invoked None]).
Proof.
  apply (@executeWithRetry_success _ _ Reference.runtime string _
           Reference.Context_background Examples.always_ok Examples.start);
    reflexivity.
Defined.

Lemma executeWithRetry_cancelled_in_wait_witness :
  executeWithRetry Examples.cancelled_after_1s Examples.always_429
    Examples.start
  = (("partial"%string, Some ErrCanceled),
     mkMachine (Reference.mkWorld (1 * Second) ∅)
       [Invoked (Some (ErrREST Examples.header_and_payload));
        Waited (2 * Second) true]).
Proof.
  apply (@executeWithRetry_cancelled_in_wait _ _ Reference.runtime string _
           Examples.cancelled_after_1s Examples.always_429 Examples.start
           "partial"%string Examples.header_and_payload
           (world Examples.start) (1500 * Millisecond)
           (world Examples.start) (Reference.mkWorld (1 * Second) ∅));
    reflexivity.
Defined.

Lemma executeWithRetry_recovers_witness :
  executeWithRetry Reference.Context_background Examples.recovering
    Examples.start
  = (("ok"%string, None),
     mkMachine (Reference.mkWorld (2 * Second) ∅)
       [Invoked (Some (ErrREST Examples.header_and_payload));
        Waited (2 * Second) false;
        Invoked None]).
Proof.
  apply (@executeWithRetry_recovers _ _ Reference.runtime string _
           Reference.Context_background Examples.recovering Examples.start
           "partial"%string Examples.header_and_payload
           (world Examples.start) (1500 * Millisecond)
           (world Examples.start) (Reference.mkWorld (2 * Second) ∅)
           "ok"%string (Reference.mkWorld (2 * Second) ∅));
    reflexivity.
Defined.

Lemma executeWithRetry_waits_after_last_witness :
  exists l d,
    log (snd (executeWithRetry Reference.Context_background
                Examples.always_429 Examples.start))
    = log Examples.start ++ rounds l
    /\ length l = 5%nat
    /\ length (waits (rounds l)) = 5%nat
    /\ last (rounds l) = Some (Waited d false).
Proof.
  apply (@executeWithRetry_waits_after_last _ _ Reference.runtime string _
           Reference.Context_background Examples.always_429).
  - intros w. exists "partial"%string, Examples.header_and_payload, w.
    split; reflexivity.
  - intros w. reflexivity.
  - intros d w. reflexivity.
Defined.

Lemma executeWithRetry_exponential_schedule_witness :
  exists events,
    log (snd (executeWithRetry Reference.Context_background
                Examples.always_hostile Examples.start))
    = log Examples.start ++ events
    /\ waits events
       = [1 * Second; 2 * Second; 4 * Second; 8 * Second; 16 * Second].
Proof.
  apply (@executeWithRetry_exponential_schedule _ _ Reference.runtime
           string _ Reference.Context_background Examples.always_hostile).
  - intros w. exists EmptyString, Examples.hostile_429, w.
    split; reflexivity.
  - intros w. reflexivity.
  - intros d w. reflexivity.
  - intros w r restErr w1 H. injection H as _ <- _. right.
    vm_compute. discriminate.
Defined.

Lemma executeWithRetry_fallback_schedule_witness :
  exists events,
    log (snd (executeWithRetry Reference.Context_background
                Examples.always_bare Examples.start))
    = log Examples.start ++ events
    /\ waits events = repeat (5 * Second + 500 * Millisecond) 5.
Proof.
  apply (@executeWithRetry_fallback_schedule _ _ Reference.runtime
           string _ Reference.Context_background Examples.always_bare).
  - intros w. exists EmptyString, Examples.bare_429, w.
    split; reflexivity.
  - intros w. reflexivity.
  - intros d w. reflexivity.
  - intros w r restErr w1 H. injection H as _ <- _.
    repeat split.
Defined.

(** ** parseRetryAfter beyond the claims *)

(** [forallb_Z_range] with the bound given as an integer. *)
Lemma forallb_Z_upto (f : Z -> bool) (n : Z) :
  forallb f (map Z.of_nat (seq 0 (Z.to_nat n))) = true ->
  forall a, 0 <= a < n -> f a = true.
Proof.
  intros H a Ha. apply (forallb_Z_range f (Z.to_nat n) H). lia.
Qed.

Section ParseRetryAfterExtras.

Context {World Context : Type} `{RT : Runtime World Context}.


(** X11. A whole number of seconds, up to an hour either way, converts to
    exactly that many seconds. *)
Theorem seconds_to_Duration_whole n :
  -3600 <= n <= 3600 ->
  seconds_to_Duration (Float64.of_int n) = n * Second.
Proof.
  intros Hn.
  assert (H : 0 <= n + 3600 < 7201) by lia.
  pose proof (forallb_Z_upto
                (fun k => seconds_to_Duration (Float64.of_int (k - 3600))
                          =? (k - 3600) * Second)
                7201 ltac:(vm_compute; reflexivity) (n + 3600) H) as Hk.
  cbv beta in Hk. apply Z.eqb_eq in Hk.
  replace (n + 3600 - 3600) with n in Hk by lia. exact Hk.
Qed.

(** X12. A number of seconds written with three decimals, up to five
    seconds, converts to its number of milliseconds or to one nanosecond
    less: the product is rounded to a float64 and then truncated. *)
Theorem seconds_to_Duration_milliseconds k :
  0 <= k <= 5000 ->
  k * Millisecond - 1
  <= seconds_to_Duration (Reference.decimal_to_float64 false k (-3))
  <= k * Millisecond.
Proof.
  intros Hk.
  assert (H : 0 <= k < 5001) by lia.
  pose proof (forallb_Z_upto
                (fun k =>
                   let d := seconds_to_Duration
                              (Reference.decimal_to_float64 false k (-3)) in
                   (k * Millisecond - 1 <=? d) && (d <=? k * Millisecond))
                5001 ltac:(vm_compute; reflexivity) k H) as Hc.
  cbv beta zeta in Hc. apply andb_true_iff in Hc. destruct Hc as [H1 H2].
  apply Z.leb_le in H1. apply Z.leb_le in H2. lia.
Qed.

End ParseRetryAfterExtras.

Lemma seconds_to_Duration_whole_witness :
  seconds_to_Duration (Float64.of_int 5) = 5 * Second.
Proof. apply (seconds_to_Duration_whole 5). lia. Defined.

(** The decimal 1.001 converts to 1000999999 nanoseconds. *)
Lemma seconds_to_Duration_milliseconds_witness :
  1001 * Millisecond - 1
  <= seconds_to_Duration (Reference.decimal_to_float64 false 1001 (-3))
  <= 1001 * Millisecond - 1.
Proof.
  pose proof (@seconds_to_Duration_milliseconds _ _ Reference.runtime 1001
                ltac:(lia)) as [H _].
  split; [exact H|]. vm_compute. discriminate.
Defined.

(** ** The forum-post handlers *)

(** *** Resource data *)

Lemma Get_SetId key id d : Get key (SetId id d) = Get key d.
Proof. reflexivity. Qed.

Lemma Get_Set_ne key key' v d :
  key' <> key -> Get key (Set_ key' v d) = Get key d.
Proof.
  intros Hne. unfold Get, Set_. cbn [attributes].
  rewrite lookup_insert_ne by exact Hne. reflexivity.
Qed.

Lemma well_typed_Set_ key v s d :
  resourceDiscordForumPost_Schema !! key = Some s ->
  type_of v = Type_ s ->
  well_typed d -> well_typed (Set_ key v d).
Proof.
  intros Hs Ht Hd key' v' Hl. unfold Set_ in Hl. cbn [attributes] in Hl.
  rewrite lookup_insert in Hl.
  destruct (decide (key = key')) as [<-|Hne].
  - injection Hl as <-. exists s. split; assumption.
  - apply (Hd key' v' Hl).
Qed.


(** The test [flags & ChannelFlagPinned != 0] reads bit 1 of the flags. *)
Lemma pinned_bit flags :
  negb (Z.land flags ChannelFlagPinned =? 0) = Z.testbit flags 1.
Proof.
  assert (H : Z.land flags (2 ^ 1) = if Z.testbit flags 1 then 2 ^ 1 else 0).
  { apply Z.bits_inj'. intros n Hn. rewrite Z.land_spec.
    rewrite Z.pow2_bits_eqb by lia.
    destruct (Z.eqb_spec 1 n) as [<-|Hne].
    - rewrite andb_true_r. destruct (Z.testbit flags 1).
      + rewrite Z.pow2_bits_eqb by lia. reflexivity.
      + rewrite Z.bits_0. reflexivity.
    - rewrite andb_false_r. destruct (Z.testbit flags 1).
      + rewrite Z.pow2_bits_eqb by lia. symmetry. apply Z.eqb_neq. exact Hne.
      + rewrite Z.bits_0. reflexivity. }
  change ChannelFlagPinned with (2 ^ 1). rewrite H.
  destruct (Z.testbit flags 1); reflexivity.
Qed.

(** The attributes after the writes of [read_thread], key by key. *)
Lemma read_thread_lookup thread d key :
  attributes (read_thread thread d) !! key
  = if decide (key = "applied_tags"%string) then
      match AppliedTags thread with
      | [] => attributes d !! key
      | _ => Some (VList (AppliedTags thread))
      end
    else if decide (key = "pinned"%string) then
      Some (VBool (Z.testbit (Flags thread) 1))
    else if decide (key = "owner_id"%string) then
      Some (VString (OwnerID thread))
    else if decide (key = "thread_id"%string) then
      Some (VString (ID thread))
    else if decide (key = "auto_archive_duration"%string) then
      match ThreadMetadata_ thread with
      | Some metadata => Some (VInt (AutoArchiveDuration metadata))
      | None => attributes d !! key
      end
    else if decide (key = "name"%string) then
      Some (VString (Name thread))
    else if decide (key = "channel_id"%string) then
      Some (VString (ParentID thread))
    else attributes d !! key.
Proof.
  unfold read_thread. rewrite <- pinned_bit.
  assert (Hlen : (0 <? Z.of_nat (length (AppliedTags thread)))
                 = match AppliedTags thread with
                   | [] => false
                   | _ => true
                   end).
  { destruct (AppliedTags thread); [reflexivity|].
    apply Z.ltb_lt. cbn [length]. lia. }
  rewrite Hlen. clear Hlen.
  destruct (AppliedTags thread) as [|tag tags];
    destruct (ThreadMetadata_ thread) as [metadata|];
    unfold Set_; cbn [attributes];
    rewrite ?lookup_insert;
    repeat (destruct (decide (_ = key)) as [<-|?]; [reflexivity|]);
    repeat (destruct (decide (key = _)) as [->|?]; [congruence|]);
    reflexivity.
Qed.

(** X14. After a read, [pinned] holds bit 1 of the thread's flags, whatever
    the other bits are. *)
Theorem read_thread_pinned thread d :
  attributes (read_thread thread d) !! "pinned"
  = Some (VBool (Z.testbit (Flags thread) 1)).
Proof. rewrite read_thread_lookup. reflexivity. Qed.

(** X15. A read that finds no tag on the thread leaves [applied_tags] as it
    was, and one that finds no thread metadata leaves
    [auto_archive_duration] as it was; otherwise both take the thread's
    values. *)
Theorem read_thread_keeps_stale thread d :
  attributes (read_thread thread d) !! "applied_tags"
  = match AppliedTags thread with
    | [] => attributes d !! "applied_tags"
    | _ => Some (VList (AppliedTags thread))
    end
  /\ attributes (read_thread thread d) !! "auto_archive_duration"
     = match ThreadMetadata_ thread with
       | Some metadata => Some (VInt (AutoArchiveDuration metadata))
       | None => attributes d !! "auto_archive_duration"
       end.
Proof. split; rewrite read_thread_lookup; reflexivity. Qed.

(** X16. A read writes seven attributes and nothing else: every other
    attribute, [message] among them, the resource ID and the answers of
    [HasChange] stay as they were. *)
Theorem read_thread_frame thread d key :
  ~ In key ["channel_id"; "name"; "auto_archive_duration"; "thread_id";
            "owner_id"; "pinned"; "applied_tags"]%string ->
  attributes (read_thread thread d) !! key = attributes d !! key
  /\ Id (read_thread thread d) = Id d
  /\ HasChange (read_thread thread d) = HasChange d.
Proof.
  intros Hkey. split; [|split].
  - rewrite read_thread_lookup.
    repeat (destruct (decide (key = _)) as [->|?];
            [exfalso; apply Hkey; cbn; tauto|]).
    reflexivity.
  - unfold read_thread. destruct (ThreadMetadata_ thread);
      destruct (0 <? _); reflexivity.
  - unfold read_thread. destruct (ThreadMetadata_ thread);
      destruct (0 <? _); reflexivity.
Qed.

(** X17. A read keeps the data well typed: every attribute it writes is in
    the schema, with a value of the type the schema gives it. *)
Theorem read_thread_well_typed thread d :
  well_typed d -> well_typed (read_thread thread d).
Proof.
  intros Hd. unfold read_thread.
  destruct (ThreadMetadata_ thread) as [metadata|];
    destruct (0 <? _);
    repeat (eapply well_typed_Set_; [reflexivity|reflexivity|]); exact Hd.
Qed.

(** X18. Reading the same thread twice gives what reading it once gives. *)
Theorem read_thread_idempotent thread d :
  read_thread thread (read_thread thread d) = read_thread thread d.
Proof.
  assert (HId : forall d', Id (read_thread thread d') = Id d').
  { intros d'. unfold read_thread. destruct (ThreadMetadata_ thread);
      destruct (0 <? _); reflexivity. }
  assert (HHc : forall d', HasChange (read_thread thread d') = HasChange d').
  { intros d'. unfold read_thread. destruct (ThreadMetadata_ thread);
      destruct (0 <? _); reflexivity. }
  assert (Hat : attributes (read_thread thread (read_thread thread d))
                = attributes (read_thread thread d)).
  { apply map_eq. intros key. rewrite (read_thread_lookup thread (read_thread _ _)).
    rewrite !(read_thread_lookup thread d).
    destruct (AppliedTags thread); destruct (ThreadMetadata_ thread);
      repeat (destruct (decide (key = _)) as [->|?]; [reflexivity|]);
      reflexivity. }
  destruct (read_thread thread (read_thread thread d)) as [i a h] eqn:E1.
  destruct (read_thread thread d) as [i' a' h'] eqn:E2.
  pose proof (HId (read_thread thread d)) as H1.
  pose proof (HHc (read_thread thread d)) as H2.
  pose proof (HId d) as H3. pose proof (HHc d) as H4.
  rewrite E2 in H1, H2, H3, H4. rewrite E1 in H1, H2.
  cbn in *. congruence.
Qed.

(** *** What [d.Get] gives on well-typed data *)






(** ** The handlers and the executor *)

Section HandlerProperties.

Context {World Context : Type} `{RT : Runtime World Context}.

Implicit Types (ctx : Context) (d : ResourceData) (m : Machine World).

(** A first invocation that succeeds, or fails with an error that is not
    retried, ends the run. *)
Lemma executeWithRetry_returns {T} `{ZT : ZeroValue T} ctx
    (operation : Operation World T) m r e w' :
  ctx_Err ctx (world m) = None ->
  operation (world m) = ((r, e), w') ->
  from_option retryable false e = false ->
  executeWithRetry ctx operation m
  = ((r, e), mkMachine w' (log m ++ [Invoked e])).
Proof.
  intros Hc Ho Hr. rewrite executeWithRetry_unfold.
  apply retry_loop_return; assumption.
Qed.

Lemma executeWithRetryNoResult_returns ctx (operation : ErrOperation World)
    m e w' :
  ctx_Err ctx (world m) = None ->
  operation (world m) = (e, w') ->
  from_option retryable false e = false ->
  executeWithRetryNoResult ctx operation m
  = (e, mkMachine w' (log m ++ [Invoked e])).
Proof.
  intros Hc Ho Hr. unfold executeWithRetryNoResult, bind.
  rewrite (executeWithRetry_returns ctx (adapt operation) m tt e w');
    [reflexivity | exact Hc | unfold adapt; rewrite Ho; reflexivity
    | exact Hr].
Qed.

(** A run under a context that is signalled at the call. *)
Lemma executeWithRetry_signalled {T} `{ZT : ZeroValue T} ctx
    (operation : Operation World T) m ce :
  ctx_Err ctx (world m) = Some ce ->
  executeWithRetry ctx operation m = ((zero_value, Some ce), m).
Proof.
  intros Hc. rewrite executeWithRetry_unfold.
  apply retry_loop_cancelled. exact Hc.
Qed.


(** X13. With a context that is not signalled, an error-only operation
    that succeeds, or fails with an error that is not retried, is invoked
    once, and what it returned is returned. *)
Theorem executeWithRetryNoResult_single ctx (operation : ErrOperation World)
    m e w' :
  ctx_Err ctx (world m) = None ->
  operation (world m) = (e, w') ->
  from_option retryable false e = false ->
  executeWithRetryNoResult ctx operation m
  = (e, mkMachine w' (log m ++ [Invoked e])).
Proof. apply executeWithRetryNoResult_returns. Qed.

(** *** resourceForumPostDelete *)

(** X20. When the first delete call answers 404, the handler reports
    success after that one call. *)
Theorem resourceForumPostDelete_not_found ctx client d m r e w' :
  ctx_Err ctx (world m) = None ->
  ChannelDelete client (Id d) (world m) = ((r, Some e), w') ->
  is_not_found e = true ->
  resourceForumPostDelete ctx client d m
  = ([], mkMachine w' (log m ++ [Invoked (Some e)])).
Proof.
  intros Hc Ho Hn. unfold resourceForumPostDelete, bind.
  rewrite (executeWithRetry_returns ctx _ m r (Some e) w' Hc Ho
             (is_not_found_not_retryable e Hn)).
  rewrite Hn. reflexivity.
Qed.

(** X21. When the first delete call fails with an error that is neither a
    429 nor a 404, the handler reports that error in one diagnostic, after
    that one call. *)
Theorem resourceForumPostDelete_failure ctx client d m r e w' :
  ctx_Err ctx (world m) = None ->
  ChannelDelete client (Id d) (world m) = ((r, Some e), w') ->
  retryable e = false ->
  is_not_found e = false ->
  resourceForumPostDelete ctx client d m
  = ([DiagErrorf "Failed to delete forum post: %s" None e],
     mkMachine w' (log m ++ [Invoked (Some e)])).
Proof.
  intros Hc Ho Hr Hn. unfold resourceForumPostDelete, bind.
  rewrite (executeWithRetry_returns ctx _ m r (Some e) w' Hc Ho Hr).
  rewrite Hn. reflexivity.
Qed.


(** *** resourceForumPostRead *)

(** X23. When the first fetch answers 404, the handler clears the resource
    ID, leaves the attributes as they are and reports no diagnostic. *)
Theorem resourceForumPostRead_not_found ctx client d m r e w' :
  ctx_Err ctx (world m) = None ->
  Channel_ client (Id d) (world m) = ((r, Some e), w') ->
  is_not_found e = true ->
  exists d',
    resourceForumPostRead ctx client d m
    = (Returned ([], d'), mkMachine w' (log m ++ [Invoked (Some e)]))
    /\ Id d' = EmptyString
    /\ attributes d' = attributes d.
Proof.
  intros Hc Ho Hn. exists (SetId EmptyString d).
  unfold resourceForumPostRead, bind.
  rewrite (executeWithRetry_returns ctx _ m r (Some e) w' Hc Ho
             (is_not_found_not_retryable e Hn)).
  rewrite Hn. repeat split.
Qed.

(** X24. When the first fetch returns a thread, the handler writes the
    thread's values and reports no diagnostic, after that one call. *)
Theorem resourceForumPostRead_fetched ctx client d m thread w' :
  ctx_Err ctx (world m) = None ->
  Channel_ client (Id d) (world m) = ((Some thread, None), w') ->
  resourceForumPostRead ctx client d m
  = (Returned ([], read_thread thread d),
     mkMachine w' (log m ++ [Invoked None])).
Proof.
  intros Hc Ho. unfold resourceForumPostRead, bind.
  rewrite (executeWithRetry_returns ctx _ m (Some thread) None w' Hc Ho
             eq_refl).
  reflexivity.
Qed.

(** X25. Under a context that is signalled at the call, the handler makes
    no call, leaves the resource data as it is and reports the context's
    error in one diagnostic that names the resource. *)
Theorem resourceForumPostRead_cancelled ctx client d m ce :
  ctx_Err ctx (world m) = Some ce ->
  is_not_found ce = false ->
  resourceForumPostRead ctx client d m
  = (Returned
       ([DiagErrorf "Failed to fetch forum post %s: %s" (Some (Id d)) ce],
        d), m).
Proof.
  intros Hc Hn. unfold resourceForumPostRead, bind.
  rewrite (executeWithRetry_signalled ctx _ m ce Hc).
  rewrite Hn. reflexivity.
Qed.

(** *** resourceForumPostCreate *)

(** X26. When the call that starts the thread fails with an error that is
    not retried, the handler reports it in one diagnostic, leaves the
    resource data as it is (no ID is set) and makes no other call. *)
Theorem resourceForumPostCreate_failure ctx client d m
    channelId name message autoArchive appliedTags r e w' :
  Get "channel_id" d = Some (VString channelId) ->
  Get "name" d = Some (VString name) ->
  Get "message" d = Some (VString message) ->
  Get "auto_archive_duration" d = Some (VInt autoArchive) ->
  collect_applied_tags d = Returned appliedTags ->
  ctx_Err ctx (world m) = None ->
  ForumThreadStartComplex client channelId
    {| ThreadStart_Name := name;
       ThreadStart_AutoArchiveDuration := autoArchive;
       ThreadStart_AppliedTags := appliedTags |}
    {| Content := message |} (world m)
  = ((r, Some e), w') ->
  retryable e = false ->
  resourceForumPostCreate ctx client d m
  = (Returned ([DiagErrorf "Failed to create forum post: %s" None e], d),
     mkMachine w' (log m ++ [Invoked (Some e)])).
Proof.
  intros Hch Hna Hme Hau Hta Hc Ho Hr.
  unfold resourceForumPostCreate. rewrite Hch, Hna, Hme, Hau, Hta.
  cbn [assert_string assert_int]. unfold bind.
  rewrite (executeWithRetry_returns ctx _ m r (Some e) w' Hc Ho Hr).
  reflexivity.
Qed.

(** X27. When the thread is started and the call that pins it fails with
    an error that is not retried, the handler reports the pin failure
    while the resource data already carry the new thread's ID; the thread
    is not fetched. *)
Theorem resourceForumPostCreate_pin_failure ctx client d m
    channelId name message autoArchive appliedTags thread w1 r e w2 :
  Get "channel_id" d = Some (VString channelId) ->
  Get "name" d = Some (VString name) ->
  Get "message" d = Some (VString message) ->
  Get "auto_archive_duration" d = Some (VInt autoArchive) ->
  collect_applied_tags d = Returned appliedTags ->
  Get "pinned" d = Some (VBool true) ->
  ctx_Err ctx (world m) = None ->
  ForumThreadStartComplex client channelId
    {| ThreadStart_Name := name;
       ThreadStart_AutoArchiveDuration := autoArchive;
       ThreadStart_AppliedTags := appliedTags |}
    {| Content := message |} (world m)
  = ((Some thread, None), w1) ->
  ctx_Err ctx w1 = None ->
  ChannelEditComplex client (ID thread)
    {| ChannelEdit_Name := EmptyString;
       ChannelEdit_AutoArchiveDuration := 0;
       ChannelEdit_AppliedTags := None;
       ChannelEdit_Flags := Some 2 |} w1
  = ((r, Some e), w2) ->
  retryable e = false ->
  exists d',
    resourceForumPostCreate ctx client d m
    = (Returned ([DiagErrorf "Failed to pin forum post: %s" None e], d'),
       mkMachine w2 (log m ++ [Invoked None; Invoked (Some e)]))
    /\ Id d' = ID thread
    /\ attributes d' !! "thread_id" = Some (VString (ID thread))
    /\ attributes d' !! "owner_id" = Some (VString (OwnerID thread)).
Proof.
  intros Hch Hna Hme Hau Hta Hpi Hc Ho Hc1 He Hr.
  eexists. split.
  - unfold resourceForumPostCreate. rewrite Hch, Hna, Hme, Hau, Hta.
    cbn [assert_string assert_int]. unfold bind.
    rewrite (executeWithRetry_returns ctx _ m (Some thread) None w1 Hc Ho
               eq_refl).
    unfold created.
    rewrite !Get_Set_ne by discriminate. rewrite Get_SetId, Hpi.
    cbn [assert_bool]. unfold bind.
    rewrite (executeWithRetryNoResult_returns ctx _
               (mkMachine w1 (log m ++ [Invoked None])) (Some e) w2 Hc1);
      [| unfold error_only; cbn [world];
         change ChannelFlagPinned with 2; rewrite He; reflexivity
       | exact Hr].
    cbn [log]. rewrite <- app_assoc. reflexivity.
  - cbn [Id Set_ SetId attributes]. split; [reflexivity|]. split.
    + rewrite lookup_insert_ne by discriminate.
      apply lookup_insert_eq.
    + apply lookup_insert_eq.
Qed.

(** X28. When the thread is started, no pin is asked for and the fetch
    that follows returns a thread, the handler makes these two calls and
    reports no diagnostic; the resource ID is the one of the thread that
    was started, the attributes are read from the thread that was fetched,
    and [message] stays as planned. *)
Theorem resourceForumPostCreate_unpinned ctx client d m
    channelId name message autoArchive appliedTags thread w1 fetched w2 :
  Get "channel_id" d = Some (VString channelId) ->
  Get "name" d = Some (VString name) ->
  Get "message" d = Some (VString message) ->
  Get "auto_archive_duration" d = Some (VInt autoArchive) ->
  collect_applied_tags d = Returned appliedTags ->
  Get "pinned" d = Some (VBool false) ->
  ctx_Err ctx (world m) = None ->
  ForumThreadStartComplex client channelId
    {| ThreadStart_Name := name;
       ThreadStart_AutoArchiveDuration := autoArchive;
       ThreadStart_AppliedTags := appliedTags |}
    {| Content := message |} (world m)
  = ((Some thread, None), w1) ->
  ctx_Err ctx w1 = None ->
  Channel_ client (ID thread) w1 = ((Some fetched, None), w2) ->
  exists d',
    resourceForumPostCreate ctx client d m
    = (Returned ([], d'),
       mkMachine w2 (log m ++ [Invoked None; Invoked None]))
    /\ Id d' = ID thread
    /\ attributes d' !! "thread_id" = Some (VString (ID fetched))
    /\ attributes d' !! "message" = attributes d !! "message".
Proof.
  intros Hch Hna Hme Hau Hta Hpi Hc Ho Hc1 Hf.
  eexists. split.
  - unfold resourceForumPostCreate. rewrite Hch, Hna, Hme, Hau, Hta.
    cbn [assert_string assert_int]. unfold bind.
    rewrite (executeWithRetry_returns ctx _ m (Some thread) None w1 Hc Ho
               eq_refl).
    unfold created.
    rewrite !Get_Set_ne by discriminate. rewrite Get_SetId, Hpi.
    cbn [assert_bool].
    unfold resourceForumPostRead, bind.
    rewrite (executeWithRetry_returns ctx _
               (mkMachine w1 (log m ++ [Invoked None])) (Some fetched)
               None w2 Hc1 Hf eq_refl).
    cbn [log]. rewrite <- app_assoc. reflexivity.
  - rewrite !read_thread_lookup. cbn [decide].
    split; [|split].
    + unfold read_thread. destruct (ThreadMetadata_ fetched);
        destruct (0 <? _); reflexivity.
    + reflexivity.
    + cbn [Set_ SetId attributes].
      rewrite !lookup_insert_ne by discriminate. reflexivity.
Qed.

(** *** resourceForumPostUpdate *)

(** X29. When none of the four attributes it tests has changed, the handler
    sends no edit: it does what [resourceForumPostRead] does. *)
Theorem resourceForumPostUpdate_unchanged ctx client d :
  HasChange d "name" = false ->
  HasChange d "auto_archive_duration" = false ->
  HasChange d "applied_tags" = false ->
  HasChange d "pinned" = false ->
  resourceForumPostUpdate ctx client d = resourceForumPostRead ctx client d.
Proof.
  intros H1 H2 H3 H4. unfold resourceForumPostUpdate, build_edit.
  rewrite H1, H2, H3, H4. reflexivity.
Qed.

(** X30. When the edit fails with an error that is not retried, the handler
    reports it in one diagnostic after that one call; the thread is not
    fetched and the resource data stay as they are. *)
Theorem resourceForumPostUpdate_failure ctx client d m edit r e w' :
  build_edit d = Returned (edit, true) ->
  ctx_Err ctx (world m) = None ->
  ChannelEditComplex client (Id d) edit (world m) = ((r, Some e), w') ->
  retryable e = false ->
  resourceForumPostUpdate ctx client d m
  = (Returned ([DiagErrorf "Failed to update forum post: %s" None e], d),
     mkMachine w' (log m ++ [Invoked (Some e)])).
Proof.
  intros Hb Hc Ho Hr. unfold resourceForumPostUpdate. rewrite Hb.
  unfold bind.
  rewrite (executeWithRetryNoResult_returns ctx _ m (Some e) w' Hc);
    [reflexivity | unfold error_only; rewrite Ho; reflexivity | exact Hr].
Qed.

End HandlerProperties.

(** *** The handlers on the reference runtime *)

Lemma well_typed_planned pinned : well_typed (Examples.planned pinned).
Proof.
  intros key v H. unfold Examples.planned in H. cbn [attributes] in H.
  repeat (rewrite lookup_insert in H;
          destruct (decide (_ = key)) as [<-|?];
          [injection H as <-; eexists; split; reflexivity|]).
  rewrite lookup_empty in H. discriminate.
Qed.

Lemma read_thread_frame_witness :
  attributes (read_thread Examples.thread_42 (Examples.stored false))
    !! "message"
  = Some (VString "hello").
Proof.
  apply (read_thread_frame Examples.thread_42 (Examples.stored false)
           "message"%string).
  cbn. intros H. repeat (destruct H as [H|H]; [discriminate H|]). exact H.
Defined.

Lemma read_thread_well_typed_witness :
  well_typed (read_thread Examples.thread_42 (Examples.planned false)).
Proof.
  apply (read_thread_well_typed Examples.thread_42 (Examples.planned false)).
  apply well_typed_planned.
Defined.


Lemma executeWithRetryNoResult_single_witness :
  executeWithRetryNoResult Reference.Context_background Examples.ok_err
    Examples.start
  = (None, mkMachine (world Examples.start) [Invoked None]).
Proof.
  apply (@executeWithRetryNoResult_single _ _ Reference.runtime
           Reference.Context_background Examples.ok_err Examples.start);
    reflexivity.
Defined.

Lemma resourceForumPostDelete_not_found_witness :
  resourceForumPostDelete Reference.Context_background
    (Examples.failing Examples.not_found_404) (Examples.stored false)
    Examples.start
  = ([], mkMachine (world Examples.start)
           [Invoked (Some (ErrREST Examples.not_found_404))]).
Proof.
  apply (@resourceForumPostDelete_not_found _ _ Reference.runtime
           Reference.Context_background
           (Examples.failing Examples.not_found_404) (Examples.stored false)
           Examples.start None);
    reflexivity.
Defined.

Lemma resourceForumPostDelete_failure_witness :
  resourceForumPostDelete Reference.Context_background
    (Examples.failing Examples.forbidden_403) (Examples.stored false)
    Examples.start
  = ([DiagErrorf "Failed to delete forum post: %s" None
        (ErrREST Examples.forbidden_403)],
     mkMachine (world Examples.start)
       [Invoked (Some (ErrREST Examples.forbidden_403))]).
Proof.
  apply (@resourceForumPostDelete_failure _ _ Reference.runtime
           Reference.Context_background
           (Examples.failing Examples.forbidden_403) (Examples.stored false)
           Examples.start None);
    reflexivity.
Defined.


Lemma resourceForumPostRead_not_found_witness :
  exists d',
    resourceForumPostRead Reference.Context_background
      (Examples.failing Examples.not_found_404) (Examples.stored false)
      Examples.start
    = (Returned ([], d'),
       mkMachine (world Examples.start)
         [Invoked (Some (ErrREST Examples.not_found_404))])
    /\ Id d' = EmptyString
    /\ attributes d' = attributes (Examples.stored false).
Proof.
  apply (@resourceForumPostRead_not_found _ _ Reference.runtime
           Reference.Context_background
           (Examples.failing Examples.not_found_404) (Examples.stored false)
           Examples.start None);
    reflexivity.
Defined.

Lemma resourceForumPostRead_fetched_witness :
  resourceForumPostRead Reference.Context_background Examples.healthy
    (Examples.stored false) Examples.start
  = (Returned ([], read_thread Examples.thread_42 (Examples.stored false)),
     mkMachine (world Examples.start) [Invoked None]).
Proof.
  apply (@resourceForumPostRead_fetched _ _ Reference.runtime
           Reference.Context_background Examples.healthy
           (Examples.stored false) Examples.start);
    reflexivity.
Defined.

Lemma resourceForumPostRead_cancelled_witness :
  resourceForumPostRead Examples.cancelled Examples.healthy
    (Examples.stored false) Examples.start
  = (Returned
       ([DiagErrorf "Failed to fetch forum post %s: %s" (Some "42"%string)
           ErrCanceled], Examples.stored false),
     Examples.start).
Proof.
  apply (@resourceForumPostRead_cancelled _ _ Reference.runtime
           Examples.cancelled Examples.healthy (Examples.stored false)
           Examples.start);
    reflexivity.
Defined.

Lemma resourceForumPostCreate_failure_witness :
  resourceForumPostCreate Reference.Context_background
    (Examples.failing Examples.forbidden_403) (Examples.planned true)
    Examples.start
  = (Returned
       ([DiagErrorf "Failed to create forum post: %s" None
           (ErrREST Examples.forbidden_403)], Examples.planned true),
     mkMachine (world Examples.start)
       [Invoked (Some (ErrREST Examples.forbidden_403))]).
Proof.
  apply (@resourceForumPostCreate_failure _ _ Reference.runtime
           Reference.Context_background
           (Examples.failing Examples.forbidden_403) (Examples.planned true)
           Examples.start "7"%string "Test Forum Post"%string
           "hello"%string 10080 [] None);
    reflexivity.
Defined.

Lemma resourceForumPostCreate_pin_failure_witness :
  exists d',
    resourceForumPostCreate Reference.Context_background Examples.read_only
      (Examples.planned true) Examples.start
    = (Returned
         ([DiagErrorf "Failed to pin forum post: %s" None
             (ErrREST Examples.forbidden_403)], d'),
       mkMachine (world Examples.start)
         [Invoked None; Invoked (Some (ErrREST Examples.forbidden_403))])
    /\ Id d' = "42"%string
    /\ attributes d' !! "thread_id" = Some (VString "42")
    /\ attributes d' !! "owner_id" = Some (VString "1").
Proof.
  apply (@resourceForumPostCreate_pin_failure _ _ Reference.runtime
           Reference.Context_background Examples.read_only
           (Examples.planned true) Examples.start "7"%string
           "Test Forum Post"%string "hello"%string 10080 []
           Examples.thread_42 (world Examples.start) None);
    reflexivity.
Defined.

Lemma resourceForumPostCreate_unpinned_witness :
  exists d',
    resourceForumPostCreate Reference.Context_background Examples.healthy
      (Examples.planned false) Examples.start
    = (Returned ([], d'),
       mkMachine (world Examples.start) [Invoked None; Invoked None])
    /\ Id d' = "42"%string
    /\ attributes d' !! "thread_id" = Some (VString "42")
    /\ attributes d' !! "message"
       = attributes (Examples.planned false) !! "message".
Proof.
  apply (@resourceForumPostCreate_unpinned _ _ Reference.runtime
           Reference.Context_background Examples.healthy
           (Examples.planned false) Examples.start "7"%string
           "Test Forum Post"%string "hello"%string 10080 []
           Examples.thread_42 (world Examples.start) Examples.thread_42);
    reflexivity.
Defined.

Lemma resourceForumPostUpdate_unchanged_witness :
  resourceForumPostUpdate Reference.Context_background Examples.healthy
    (Examples.stored false)
  = resourceForumPostRead Reference.Context_background Examples.healthy
      (Examples.stored false).
Proof.
  apply (@resourceForumPostUpdate_unchanged _ _ Reference.runtime
           Reference.Context_background Examples.healthy
           (Examples.stored false));
    reflexivity.
Defined.

Lemma resourceForumPostUpdate_failure_witness :
  resourceForumPostUpdate Reference.Context_background Examples.read_only
    (Examples.stored true) Examples.start
  = (Returned
       ([DiagErrorf "Failed to update forum post: %s" None
           (ErrREST Examples.forbidden_403)], Examples.stored true),
     mkMachine (world Examples.start)
       [Invoked (Some (ErrREST Examples.forbidden_403))]).
Proof.
  apply (@resourceForumPostUpdate_failure _ _ Reference.runtime
           Reference.Context_background Examples.read_only
           (Examples.stored true) Examples.start
           {| ChannelEdit_Name := "Test Forum Post";
              ChannelEdit_AutoArchiveDuration := 0;
              ChannelEdit_AppliedTags := None;
              ChannelEdit_Flags := None |} None);
    reflexivity.
Defined.
